(** * Deviations API (src/main.py): a shallow embedding and its properties

    The service is a FastAPI application with three routes over an OpenSearch
    cluster: [get_deviations] (filtered listing), [get_deviation_by_id] and
    [health_check].  The embedding follows main.py top to bottom:

    - Python values that travel through the handlers (the query dict, the
      backend replies, the returned bodies) are [json] trees with Python's
      subscript and iteration rules;
    - [datetime] is the record of the standard library with its comparison
      (naive against aware raises TypeError) and its [isoformat];
    - handlers run in a state-and-exception monad whose state holds the local
      [query] dict under construction and the log of observable events
      (handles built, pings, backend calls, logging.error lines);
    - what FastAPI does with the declarations of the routes
      ([Query(..., ge=1, le=100)], [Depends(get_opensearch_client)],
      [response_model=...]) is the route layer around the handlers;
    - what runs when the module is imported and run as a script (the file
      checks, [load_dotenv], [config.read], [setup_ngrok] and the [__main__]
      block) is a second, smaller monad over the effects of the start. *)

From stdpp Require Import gmap strings list.
From Stdlib Require Import ZArith Ascii DecimalString Lia.

Set Warnings "-register-all".
Local Open Scope string_scope.
Local Open Scope list_scope.
Local Open Scope Z_scope.

(** ** Python values *)

(** A dict is the list of its items, each key once, in insertion order; a
    float is carried as its text, no handler computes with one. *)
Inductive json : Type :=
| JNull
| JBool (b : bool)
| JInt (n : Z)
| JFloat (text : string)
| JStr (s : string)
| JArr (items : list json)
| JObj (fields : list (string * json)).

(** Everything a handler can raise, apart from [HTTPException].  The
    [OpenSearchException] case stands for any exception leaving the client
    library; its payload is the text [str(e)] of that exception. *)
Inductive PyError : Type :=
| KeyError (key : string)
| TypeError (msg : string)
| ValueError (msg : string)
| AttributeError (msg : string)
| ValidationError (errors : list (string * string))
| OpenSearchException (text : string)
| PlainException (msg : string)
| FileNotFoundError (msg : string)
| ConfigParserError (msg : string).

Inductive Exception : Type :=
| HTTPException (status_code : Z) (detail : string)
| Raised (e : PyError).

Coercion Raised : PyError >-> Exception.

(** Dict lookup on the items of an object. *)
Fixpoint assoc (k : string) (fields : list (string * json)) : option json :=
  match fields with
  | [] => None
  | (k', v) :: rest => if String.eqb k k' then Some v else assoc k rest
  end.

Fixpoint assoc_set (k : string) (v : json) (fields : list (string * json))
  : list (string * json) :=
  match fields with
  | [] => [(k, v)]
  | (k', v') :: rest =>
      if String.eqb k k' then (k, v) :: rest else (k', v') :: assoc_set k v rest
  end.

(** [v[k]] for a string key [k] (the TypeError texts are those of
    CPython 3.11 and later). *)
Definition getitem (v : json) (k : string) : PyError + json :=
  match v with
  | JObj fields =>
      match assoc k fields with
      | Some x => inr x
      | None => inl (KeyError k)
      end
  | JArr _ => inl (TypeError "list indices must be integers or slices, not str")
  | JStr _ => inl (TypeError "string indices must be integers, not 'str'")
  | JNull => inl (TypeError "'NoneType' object is not subscriptable")
  | JBool _ => inl (TypeError "'bool' object is not subscriptable")
  | JInt _ => inl (TypeError "'int' object is not subscriptable")
  | JFloat _ => inl (TypeError "'float' object is not subscriptable")
  end.

Fixpoint chars (s : string) : list json :=
  match s with
  | EmptyString => []
  | String c rest => JStr (String c EmptyString) :: chars rest
  end.

(** [for x in v]: the sequence a value yields when iterated. *)
Definition iter (v : json) : PyError + list json :=
  match v with
  | JArr items => inr items
  | JObj fields => inr (map (fun kv => JStr (fst kv)) fields)
  | JStr s => inr (chars s)
  | JNull => inl (TypeError "'NoneType' object is not iterable")
  | JBool _ => inl (TypeError "'bool' object is not iterable")
  | JInt _ => inl (TypeError "'int' object is not iterable")
  | JFloat _ => inl (TypeError "'float' object is not iterable")
  end.

(** [[f(x) for x in xs]], stopping at the first exception. *)
Fixpoint comprehension (f : json -> PyError + json) (xs : list json)
  : PyError + list json :=
  match xs with
  | [] => inr []
  | x :: rest =>
      match f x with
      | inl e => inl e
      | inr y =>
          match comprehension f rest with
          | inl e => inl e
          | inr ys => inr (y :: ys)
          end
      end
  end.

(** In-place update of the value reached through a chain of subscripts:
    [v[k1][k2]...[kn]] is replaced by what [f] makes of it. *)
Fixpoint update_at (path : list string) (f : json -> PyError + json) (v : json)
  : PyError + json :=
  match path with
  | [] => f v
  | k :: path' =>
      match getitem v k with
      | inl e => inl e
      | inr child =>
          match update_at path' f child with
          | inl e => inl e
          | inr child' =>
              match v with
              | JObj fields => inr (JObj (assoc_set k child' fields))
              | _ => inr v
              end
          end
      end
  end.

(** [lst.append(x)]. *)
Definition list_append (x : json) (lst : json) : PyError + json :=
  match lst with
  | JArr items => inr (JArr (items ++ [x]))
  | _ => inl (AttributeError "object has no attribute 'append'")
  end.

(** ** datetime *)

Module Datetime.

(** [utcoffset] is [None] for a naive value and the offset east of UTC, in
    microseconds, for an aware one. *)
Record datetime : Type := mk {
  year : Z;
  month : Z;
  day : Z;
  hour : Z;
  minute : Z;
  second : Z;
  microsecond : Z;
  utcoffset : option Z
}.

Definition _is_leap (y : Z) : bool :=
  (y mod 4 =? 0) && (negb (y mod 100 =? 0) || (y mod 400 =? 0)).

Definition _DAYS_BEFORE_MONTH : list Z :=
  [-1; 0; 31; 59; 90; 120; 151; 181; 212; 243; 273; 304; 334].

Definition _DAYS_IN_MONTH : list Z :=
  [-1; 31; 28; 31; 30; 31; 30; 31; 31; 30; 31; 30; 31].

Definition _days_before_year (y0 : Z) : Z :=
  let y := y0 - 1 in y * 365 + y / 4 - y / 100 + y / 400.

Definition _days_in_month (y m : Z) : Z :=
  if (m =? 2) && _is_leap y then 29 else nth (Z.to_nat m) _DAYS_IN_MONTH 0.

Definition _days_before_month (y m : Z) : Z :=
  nth (Z.to_nat m) _DAYS_BEFORE_MONTH 0
  + (if (2 <? m) && _is_leap y then 1 else 0).

Definition _ymd2ord (y m d : Z) : Z :=
  _days_before_year y + _days_before_month y m + d.

Definition toordinal (t : datetime) : Z := _ymd2ord (year t) (month t) (day t).

(** The value as microseconds on its own wall clock. *)
Definition wall_micros (t : datetime) : Z :=
  ((toordinal t * 86400) + hour t * 3600 + minute t * 60 + second t) * 1000000
  + microsecond t.

Fixpoint cmp_tuple (a b : list Z) : Z :=
  match a, b with
  | x :: a', y :: b' =>
      if x <? y then -1 else if y <? x then 1 else cmp_tuple a' b'
  | [], [] => 0
  | [], _ :: _ => -1
  | _ :: _, [] => 1
  end.

Definition fields (t : datetime) : list Z :=
  [year t; month t; day t; hour t; minute t; second t; microsecond t].

Definition option_Z_eqb (a b : option Z) : bool :=
  match a, b with
  | None, None => true
  | Some x, Some y => x =? y
  | _, _ => false
  end.

(** [datetime._cmp]: equal offsets (both naive included) compare the
    fields; a naive value against an aware one raises; two aware values
    with different offsets compare as instants. *)
Definition _cmp (self other : datetime) : PyError + Z :=
  if option_Z_eqb (utcoffset self) (utcoffset other) then
    inr (cmp_tuple (fields self) (fields other))
  else
    match utcoffset self, utcoffset other with
    | Some myoff, Some otoff =>
        let diff := wall_micros self - wall_micros other + otoff - myoff in
        inr (if diff <? 0 then -1 else if diff =? 0 then 0 else 1)
    | _, _ =>
        inl (TypeError "can't compare offset-naive and offset-aware datetimes")
    end.

(** [self > other]. *)
Definition gt (self other : datetime) : PyError + bool :=
  match _cmp self other with
  | inl e => inl e
  | inr c => inr (0 <? c)
  end.

(** [self <= other]. *)
Definition le (self other : datetime) : PyError + bool :=
  match _cmp self other with
  | inl e => inl e
  | inr c => inr (c <=? 0)
  end.

(** The format [%0wd] applied to [n] with [0 <= n]: at least [w] digits,
    zero padded. *)
Fixpoint zeros (k : nat) : string :=
  match k with
  | O => ""
  | S k' => "0" +:+ zeros k'
  end.

Definition fmt_d (w : nat) (n : Z) : string :=
  let digits := NilZero.string_of_uint (N.to_uint (Z.to_N n)) in
  zeros (w - String.length digits)%nat +:+ digits.

Definition _format_time (hh mm ss us : Z) : string :=
  fmt_d 2 hh +:+ ":" +:+ fmt_d 2 mm +:+ ":" +:+ fmt_d 2 ss
  +:+ (if us =? 0 then "" else "." +:+ fmt_d 6 us).

Definition _format_offset (off : option Z) : string :=
  match off with
  | None => ""
  | Some o =>
      let sign := if o <? 0 then "-" else "+" in
      let a := Z.abs o in
      let hh := a / 3600000000 in
      let r := a mod 3600000000 in
      let mm := r / 60000000 in
      let ss := r mod 60000000 in
      sign +:+ fmt_d 2 hh +:+ ":" +:+ fmt_d 2 mm
      +:+ (if ss =? 0 then ""
           else ":" +:+ fmt_d 2 (ss / 1000000)
                +:+ (if ss mod 1000000 =? 0 then ""
                     else "." +:+ fmt_d 6 (ss mod 1000000)))
  end.

(** [t.isoformat()] with the default separator and timespec. *)
Definition isoformat (t : datetime) : string :=
  fmt_d 4 (year t) +:+ "-" +:+ fmt_d 2 (month t) +:+ "-" +:+ fmt_d 2 (day t)
  +:+ "T"
  +:+ _format_time (hour t) (minute t) (second t) (microsecond t)
  +:+ _format_offset (utcoffset t).

End Datetime.

Import Datetime.

(** ** What the interpreter and the libraries decide

    Which strings [datetime.fromisoformat] accepts, how FastAPI reads a query
    value declared [datetime] or [int], how pydantic words its
    [ValidationError], and what pydantic makes of a value that is not a dict
    where a [Dict[str, ...]] is declared (the items of the dict it is coerced
    to, or a refusal) vary with the installed versions.  The model takes them as
    given; [None] is a rejected input. *)
Class Runtime : Type := {
  fromisoformat : string -> option datetime;
  query_datetime : string -> option datetime;
  query_int : string -> option Z;
  validation_error_text : string -> list (string * string) -> string;
  coerce_dict : json -> option (list (string * json))
}.

(** [str(e)].  A [KeyError] prints the repr of its key; the handlers only
    subscript with keys free of quotes and escapes. *)
Definition str {rt : Runtime} (e : PyError) : string :=
  match e with
  | KeyError key => "'" +:+ key +:+ "'"
  | TypeError msg => msg
  | ValueError msg => msg
  | AttributeError msg => msg
  | ValidationError errors => validation_error_text "DeviationQueryParams" errors
  | OpenSearchException text => text
  | PlainException msg => msg
  | FileNotFoundError msg => msg
  | ConfigParserError msg => msg
  end.

(** ** The backend and the events a run leaves behind *)

(** The cluster as the client library lets the service see it: each call
    returns the decoded reply or raises, [inl text] carrying [str(e)]. *)
Record Cluster : Type := {
  cluster_ping : bool;
  cluster_search : string -> json -> Z -> Z -> string + json;
  cluster_get : string -> string -> string + json;
  cluster_health : string + json
}.

(** One client object: [handle] tells the objects apart. *)
Record OpenSearch : Type := {
  handle : nat;
  cluster : Cluster
}.

Inductive Event : Type :=
| EvNewClient (h : nat)
| EvPing (h : nat)
| EvSearch (h : nat) (index : string) (body : json) (size from_ : Z)
| EvGet (h : nat) (index id : string)
| EvClusterHealth (h : nat)
| EvLogError (line : string).

(** ** The monad of the handlers *)

(** The state of a run: the local [query] of [get_deviations] ([JNull]
    until line 217 binds it) and the events so far. *)
Record State : Type := {
  query : json;
  log : list Event
}.

Definition M (E A : Type) : Type := State -> (E + A) * State.

Definition ret {E A} (x : A) : M E A := fun s => (inr x, s).

Definition raise {E A} (e : E) : M E A := fun s => (inl e, s).

Definition bind {E A B} (c : M E A) (k : A -> M E B) : M E B :=
  fun s =>
    match c s with
    | (inl e, s') => (inl e, s')
    | (inr x, s') => k x s'
    end.

(** [try: c  except ... as e: h e]. *)
Definition try_except {E E' A} (c : M E A) (h : E -> M E' A) : M E' A :=
  fun s =>
    match c s with
    | (inl e, s') => h e s'
    | (inr x, s') => (inr x, s')
    end.

(** A pure computation that may raise, run inside a handler. *)
Definition lift {E A} (inj : PyError -> E) (r : PyError + A) : M E A :=
  fun s =>
    match r with
    | inl e => (inl (inj e), s)
    | inr x => (inr x, s)
    end.

Definition emit {E} (ev : Event) : M E unit :=
  fun s => (inr tt, {| query := query s; log := log s ++ [ev] |}).

Definition get_query {E} : M E json := fun s => (inr (query s), s).

Definition get_log {E} : M E (list Event) := fun s => (inr (log s), s).

Definition set_query {E} (q : json) : M E unit :=
  fun s => (inr tt, {| query := q; log := log s |}).

Declare Scope handler_scope.
Delimit Scope handler_scope with handler.
Notation "x <- c ;; k" := (bind c (fun x => k))
  (at level 100, c at next level, right associativity) : handler_scope.
Notation "c ;; k" := (bind c (fun _ => k))
  (at level 100, right associativity) : handler_scope.
Local Open Scope handler_scope.

(** [logging.error(line)]. *)
Definition logging_error {E} (line : string) : M E unit := emit (EvLogError line).

Definition of_reply (r : string + json) : PyError + json :=
  match r with
  | inl text => inl (OpenSearchException text)
  | inr v => inr v
  end.

(** The client calls the handlers make. *)
Definition client_ping {E} (c : OpenSearch) : M E bool :=
  emit (EvPing (handle c)) ;; ret (cluster_ping (cluster c)).

Definition client_search {E} (inj : PyError -> E) (c : OpenSearch)
    (index : string) (body : json) (size from_ : Z) : M E json :=
  emit (EvSearch (handle c) index body size from_) ;;
  lift inj (of_reply (cluster_search (cluster c) index body size from_)).

Definition client_get {E} (inj : PyError -> E) (c : OpenSearch)
    (index id : string) : M E json :=
  emit (EvGet (handle c) index id) ;;
  lift inj (of_reply (cluster_get (cluster c) index id)).

Definition client_cluster_health {E} (inj : PyError -> E) (c : OpenSearch)
  : M E json :=
  emit (EvClusterHealth (handle c)) ;;
  lift inj (of_reply (cluster_health (cluster c))).

(** ** class DeviationQueryParams(BaseModel) *)

(** What a caller may hand over for [start_time] and [end_time]: Python
    does not stop a string from reaching the model. *)
Inductive time_arg : Type :=
| TimeNone
| TimeStr (s : string)
| TimeValue (d : datetime).

Definition time_of (o : option datetime) : time_arg :=
  match o with
  | Some d => TimeValue d
  | None => TimeNone
  end.

Module DeviationQueryParams.

Record t : Type := mk {
  camera_name : option string;
  event_type : option string;
  camera_type : option string;
  start_time : option datetime;
  end_time : option datetime;
  size : Z;
  from_ : Z
}.

(** The validator of [start_time] and [end_time] ([pre=True]): a string
    goes through [fromisoformat], anything else is returned as it came. *)
Definition parse_datetime {rt : Runtime} (value : time_arg)
  : PyError + option datetime :=
  match value with
  | TimeStr s =>
      match fromisoformat s with
      | Some d => inr (Some d)
      | None =>
          inl (ValueError
                 "Formato de data inválido. Use o formato ISO 8601 (YYYY-MM-DDTHH:MM:SS).")
      end
  | TimeValue d => inr (Some d)
  | TimeNone => inr None
  end.

Definition field_errors {A} (field : string) (r : PyError + A)
  : list (string * string) :=
  match r with
  | inl (ValueError msg) => [(field, msg)]
  | _ => []
  end.

(** [DeviationQueryParams(camera_name=..., ..., from_=...)]: pydantic runs
    the validators and raises one [ValidationError] listing every field that
    failed. *)
Definition init {rt : Runtime} (camera_name event_type camera_type : option string)
    (start_time end_time : time_arg) (size from_ : Z) : PyError + t :=
  let st := parse_datetime start_time in
  let et := parse_datetime end_time in
  match st, et with
  | inr st', inr et' =>
      inr (mk camera_name event_type camera_type st' et' size from_)
  | _, _ =>
      inl (ValidationError
             (field_errors "start_time" st ++ field_errors "end_time" et))
  end.

End DeviationQueryParams.

Notation "p .# f" := (f p) (at level 2, left associativity, only parsing).

(** ** The handlers *)

Section Handlers.

Context {rt : Runtime}.

(** [query["query"]["bool"]["must"].append(clause)]. *)
Definition must_append (clause : json) : M Exception unit :=
  q <- get_query ;;
  q' <- lift Raised (update_at ["query"; "bool"; "must"] (list_append clause) q) ;;
  set_query q'.

Definition when (b : bool) (c : M Exception unit) : M Exception unit :=
  if b then c else ret tt.

(** [if o: k(o)] for an [Optional[str]]: [None] and the empty string are
    false. *)
Definition if_truthy (o : option string) (k : string -> M Exception unit)
  : M Exception unit :=
  match o with
  | Some v => if String.eqb v "" then ret tt else k v
  | None => ret tt
  end.

(** Lines 217 to 257 of [get_deviations]: the query dict is created and
    the filters are appended to its [must] list.  A datetime is always true,
    so the tests on [start_time] and [end_time] are tests against [None]. *)
Definition build_query (query_params : DeviationQueryParams.t)
  : M Exception unit :=
  set_query (JObj [("query", JObj [("bool", JObj [("must", JArr [])])])]) ;;
  if_truthy query_params.#DeviationQueryParams.camera_name
    (fun v => must_append (JObj [("term", JObj [("camera_name", JStr v)])])) ;;
  if_truthy query_params.#DeviationQueryParams.event_type
    (fun v => must_append (JObj [("term", JObj [("event_type", JStr v)])])) ;;
  if_truthy query_params.#DeviationQueryParams.camera_type
    (fun v => must_append (JObj [("term", JObj [("camera_type", JStr v)])])) ;;
  match query_params.#DeviationQueryParams.start_time,
        query_params.#DeviationQueryParams.end_time with
  | Some st, Some et =>
      later <- lift Raised (Datetime.gt st et) ;;
      when later
        (raise (HTTPException 400 "start_time deve ser anterior a end_time")) ;;
      must_append
        (JObj [("range",
                JObj [("timestamp",
                       JObj [("gte", JStr (isoformat st));
                             ("lte", JStr (isoformat et))])])])
  | Some st, None =>
      must_append
        (JObj [("range",
                JObj [("timestamp", JObj [("gte", JStr (isoformat st))])])])
  | None, Some et =>
      must_append
        (JObj [("range",
                JObj [("timestamp", JObj [("lte", JStr (isoformat et))])])])
  | None, None => ret tt
  end.

(** [[hit["_source"] for hit in response["hits"]["hits"]]]. *)
Definition sources (response : json) : PyError + list json :=
  match getitem response "hits" with
  | inl e => inl e
  | inr outer =>
      match getitem outer "hits" with
      | inl e => inl e
      | inr inner =>
          match iter inner with
          | inl e => inl e
          | inr hits => comprehension (fun hit => getitem hit "_source") hits
          end
      end
  end.

(** The body of the [try] of [get_deviations]. *)
Definition get_deviations_try
    (camera_name event_type camera_type : option string)
    (start_time end_time : time_arg) (size from_ : Z)
    (opensearch_client : OpenSearch) : M Exception json :=
  query_params <-
    lift Raised (DeviationQueryParams.init camera_name event_type camera_type
                   start_time end_time size from_) ;;
  build_query query_params ;;
  body <- get_query ;;
  response <-
    client_search Raised opensearch_client "deviations" body
      query_params.#DeviationQueryParams.size
      query_params.#DeviationQueryParams.from_ ;;
  deviations <- lift Raised (sources response) ;;
  ret (JObj [("deviations", JArr deviations)]).

(** [get_deviations]: an [HTTPException] passes through, anything else is
    logged and becomes a 500. *)
Definition get_deviations
    (camera_name event_type camera_type : option string)
    (start_time end_time : time_arg) (size from_ : Z)
    (opensearch_client : OpenSearch) : M Exception json :=
  try_except
    (get_deviations_try camera_name event_type camera_type
       start_time end_time size from_ opensearch_client)
    (fun exc =>
       match exc with
       | HTTPException _ _ => raise exc
       | Raised e =>
           logging_error ("Erro ao consultar OpenSearch: " +:+ str e) ;;
           raise (HTTPException 500 ("Erro ao consultar OpenSearch: " +:+ str e))
       end).

(** [get_deviation_by_id]: the body of the [try] raises no
    [HTTPException], so [except Exception as e] sees a [PyError]. *)
Definition get_deviation_by_id_try (deviation_id : string)
    (opensearch_client : OpenSearch) : M PyError json :=
  response <- client_get id opensearch_client "deviations" deviation_id ;;
  lift id (getitem response "_source").

Definition get_deviation_by_id (deviation_id : string)
    (opensearch_client : OpenSearch) : M Exception json :=
  try_except
    (get_deviation_by_id_try deviation_id opensearch_client)
    (fun e : PyError =>
       logging_error ("Desvio não encontrado: " +:+ str e) ;;
       raise (HTTPException 404 ("Desvio não encontrado: " +:+ str e))).

(** [app.version]. *)
Definition app_version : string := "1.0.0".

Definition health_check (opensearch_client : OpenSearch) : M Exception json :=
  try_except
    (health <- client_cluster_health id opensearch_client ;;
     status <- lift id (getitem health "status") ;;
     ret (JObj [("status", JStr "healthy");
                ("opensearch_status", status);
                ("version", JStr app_version)]))
    (fun e : PyError =>
       logging_error ("Serviço indisponível: " +:+ str e) ;;
       raise (HTTPException 503 ("Serviço indisponível: " +:+ str e))).

End Handlers.

(** ** The route layer: what FastAPI does around a handler *)

(** The files and settings the process finds.  [load_dotenv] and
    [config_read] are what [load_dotenv()] and [config.read("config.ini")] do
    on the files when they are there: the call returns, or raises, as
    [config.read] does with the configparser error of a malformed file.
    [client_settings]
    is the outcome of evaluating the arguments of [OpenSearch(...)] against
    config.ini and the environment: the cluster they lead to, or the
    exception of a missing key or an unreadable port or flag. *)
Record Deployment : Type := {
  config_ini_exists : bool;
  dotenv_exists : bool;
  load_dotenv : PyError + unit;
  config_read : PyError + unit;
  client_settings : PyError + Cluster
}.

(** Running the module, lines 109 to 124: the two existence checks, then
    [load_dotenv()], then [config.read]; an exception of any of them ends the
    import.  What follows only defines.  The log of a process that came up is
    empty. *)
Definition module_init (d : Deployment) : PyError + list Event :=
  if negb (config_ini_exists d) then
    inl (FileNotFoundError "Arquivo config.ini não encontrado!")
  else if negb (dotenv_exists d) then
    inl (FileNotFoundError "Arquivo .env não encontrado!")
  else
    match load_dotenv d with
    | inl e => inl e
    | inr _ =>
        match config_read d with
        | inl e => inl e
        | inr _ => inr []
        end
    end.

Definition is_new_client (ev : Event) : bool :=
  match ev with
  | EvNewClient _ => true
  | _ => false
  end.

(** How many client objects a log has seen built. *)
Definition clients_built (l : list Event) : nat :=
  length (List.filter is_new_client l).

(** [OpenSearch(hosts=..., http_auth=..., use_ssl=..., verify_certs=...)]:
    a new object each time it runs. *)
Definition OpenSearch_new (settings : PyError + Cluster) : M PyError OpenSearch :=
  cl <- lift id settings ;;
  seen <- get_log ;;
  let client := {| handle := clients_built seen; cluster := cl |} in
  emit (EvNewClient (handle client)) ;;
  ret client.

Definition get_opensearch_client (d : Deployment) : M PyError OpenSearch :=
  client <- OpenSearch_new (client_settings d) ;;
  alive <- client_ping client ;;
  if negb alive then
    raise (PlainException "Não foi possível conectar ao OpenSearch!")
  else ret client.

(** Where a parameter that failed sits, as FastAPI reports it: the source
    of the value, then the name. *)
Definition location : Type := list string.

(** The query string of a request is a map from names to raw values, one
    value per name. *)
Section Binding.

Context {rt : Runtime}.

Definition param_str (q : gmap string string) (alias : string)
  : location + option string :=
  inr (q !! alias).

Definition param_datetime (q : gmap string string) (alias : string)
  : location + option datetime :=
  match q !! alias with
  | None => inr None
  | Some raw =>
      match query_datetime raw with
      | Some d => inr (Some d)
      | None => inl ["query"; alias]
      end
  end.

Definition within (n : Z) (ge le : option Z) : bool :=
  match ge with Some lo => lo <=? n | None => true end
  && match le with Some hi => n <=? hi | None => true end.

(** [Query(default, alias=alias, ge=ge, le=le)] on an [int] parameter. *)
Definition param_int (q : gmap string string) (alias : string) (default : Z)
    (ge le : option Z) : location + Z :=
  match q !! alias with
  | None => inr default
  | Some raw =>
      match query_int raw with
      | Some n => if within n ge le then inr n else inl ["query"; alias]
      | None => inl ["query"; alias]
      end
  end.

Definition failed {A} (r : location + A) : list location :=
  match r with
  | inl loc => [loc]
  | inr _ => []
  end.

(** The arguments FastAPI hands to [get_deviations]. *)
Record Bound : Type := {
  arg_camera_name : option string;
  arg_event_type : option string;
  arg_camera_type : option string;
  arg_start_time : option datetime;
  arg_end_time : option datetime;
  arg_size : Z;
  arg_from_ : Z
}.

(** The parameters of [get_deviations] as its signature declares them;
    every parameter that fails is reported. *)
Definition bind_get_deviations (q : gmap string string)
  : list location + Bound :=
  let camera_name := param_str q "camera_name" in
  let event_type := param_str q "event_type" in
  let camera_type := param_str q "camera_type" in
  let start_time := param_datetime q "start_time" in
  let end_time := param_datetime q "end_time" in
  let size := param_int q "size" 10 (Some 1) (Some 100) in
  let from_ := param_int q "from" 0 None None in
  match camera_name, event_type, camera_type, start_time, end_time, size, from_ with
  | inr a, inr b, inr c, inr d, inr e, inr f, inr g => inr (Build_Bound a b c d e f g)
  | _, _, _, _, _, _, _ =>
      inl (failed camera_name ++ failed event_type ++ failed camera_type
           ++ failed start_time ++ failed end_time ++ failed size
           ++ failed from_)%list
  end.

End Binding.

Inductive Response : Type :=
| Ok (content : json)
| ErrorDetail (status_code : Z) (detail : string)
| UnprocessableEntity (errors : list location)
| InternalServerError.

(** The status line of a response: FastAPI answers a request-validation
    failure with 422 and an exception nobody handles with 500; main.py
    registers no handler of its own. *)
Definition status_of (r : Response) : Z :=
  match r with
  | Ok _ => 200
  | ErrorDetail status_code _ => status_code
  | UnprocessableEntity _ => 422
  | InternalServerError => 500
  end.

(** The types a route declares as [response_model]: [Any],
    [Dict[str, T]] and [List[T]]. *)
Inductive shape : Type :=
| TAny
| TDict (value : shape)
| TList (item : shape).

Fixpoint traverse {A B} (f : A -> option B) (l : list A) : option (list B) :=
  match l with
  | [] => Some []
  | x :: rest =>
      match f x, traverse f rest with
      | Some y, Some ys => Some (y :: ys)
      | _, _ => None
      end
  end.

Section ResponseModel.

Context {rt : Runtime}.

(** The [response_model] pass over what a handler returned: the value as
    validated against the declared type, or [None] when it is refused.  A
    dict is validated item by item (its keys are strings already), a list
    element by element; a value that is not a dict where one is declared is
    left to pydantic's coercion, and only a list stands where a list is
    declared. *)
Fixpoint validate (m : shape) (v : json) : option json :=
  match m with
  | TAny => Some v
  | TList item =>
      match v with
      | JArr items => JArr <$> traverse (validate item) items
      | _ => None
      end
  | TDict value =>
      match (match v with JObj fields => Some fields | _ => coerce_dict v end) with
      | Some fields =>
          JObj <$> traverse
                     (fun kv => pair (fst kv) <$> validate value (snd kv))
                     fields
      | None => None
      end
  end.

(** The response to what a handler returned or raised.  A returned value
    goes through the [response_model] of the route when it declares one, and a
    value the pass refuses is an exception nobody handles. *)
Definition respond (response_model : option shape) (r : Exception + json)
  : Response :=
  match r with
  | inr content =>
      match response_model with
      | Some m =>
          match validate m content with
          | Some validated => Ok validated
          | None => InternalServerError
          end
      | None => Ok content
      end
  | inl (HTTPException status_code detail) => ErrorDetail status_code detail
  | inl (Raised _) => InternalServerError
  end.

End ResponseModel.

(** [response_model=Dict[str, List[Dict[str, Any]]]] of the list route,
    [response_model=Dict[str, Any]] of the lookup by id; the health route
    declares none. *)
Definition deviations_model : option shape := Some (TDict (TList (TDict TAny))).

Definition deviation_model : option shape := Some (TDict TAny).

(** The three routes; [deviation_id] is the path segment the route
    matched. *)
Inductive Request : Type :=
| GET_deviations (q : gmap string string)
| GET_deviation_by_id (deviation_id : string)
| GET_health.

Section Routes.

Context {rt : Runtime}.

(** One request: [Depends(get_opensearch_client)] runs first, then the
    parameters are bound, then the handler runs, then what it returned goes
    through the [response_model] of the route. *)
Definition serve (d : Deployment) (r : Request) (w : list Event)
  : Response * list Event :=
  match get_opensearch_client d {| query := JNull; log := w |} with
  | (inl _, s) => (InternalServerError, log s)
  | (inr client, s) =>
      match r with
      | GET_deviations q =>
          match bind_get_deviations q with
          | inl errors => (UnprocessableEntity errors, log s)
          | inr a =>
              let '(out, s') :=
                get_deviations (arg_camera_name a) (arg_event_type a)
                  (arg_camera_type a) (time_of (arg_start_time a))
                  (time_of (arg_end_time a)) (arg_size a) (arg_from_ a)
                  client s in
              (respond deviations_model out, log s')
          end
      | GET_deviation_by_id deviation_id =>
          let '(out, s') := get_deviation_by_id deviation_id client s in
          (respond deviation_model out, log s')
      | GET_health =>
          let '(out, s') := health_check client s in
          (respond None out, log s')
      end
  end.

(** The requests of a process, one after the other. *)
Fixpoint serve_all (d : Deployment) (rs : list Request) (w : list Event)
  : list Response * list Event :=
  match rs with
  | [] => ([], w)
  | r :: rest =>
      let '(resp, w') := serve d r w in
      let '(resps, w'') := serve_all d rest w' in
      (resp :: resps, w'')
  end.

End Routes.

(** ** A reference runtime and deployment

    One concrete choice for the parts the model leaves open, to run the
    model on: signed decimal integers, date-times written
    [YYYY-MM-DDTHH:MM:SS], and a cluster with two stored documents. *)

Module Reference.

Definition digit_of (c : Ascii.ascii) : option Z :=
  let n := Z.of_nat (Ascii.nat_of_ascii c) in
  if (48 <=? n) && (n <=? 57) then Some (n - 48) else None.

Fixpoint digits_value (acc : Z) (s : string) : option Z :=
  match s with
  | EmptyString => Some acc
  | String c rest =>
      match digit_of c with
      | Some d => digits_value (acc * 10 + d) rest
      | None => None
      end
  end.

Definition unsigned (s : string) : option Z :=
  match s with
  | EmptyString => None
  | _ => digits_value 0 s
  end.

Definition decimal (s : string) : option Z :=
  match s with
  | String c rest =>
      if Ascii.eqb c "-"%char then Z.opp <$> unsigned rest
      else if Ascii.eqb c "+"%char then unsigned rest
      else unsigned s
  | EmptyString => None
  end.

Definition char_at (i : nat) (s : string) : string := String.substring i 1 s.

Definition iso_seconds (s : string) : option datetime :=
  if negb (Nat.eqb (String.length s) 19) then None
  else if negb (String.eqb (char_at 4 s) "-" && String.eqb (char_at 7 s) "-"
                && String.eqb (char_at 10 s) "T" && String.eqb (char_at 13 s) ":"
                && String.eqb (char_at 16 s) ":") then None
  else
    match unsigned (String.substring 0 4 s), unsigned (String.substring 5 2 s),
          unsigned (String.substring 8 2 s), unsigned (String.substring 11 2 s),
          unsigned (String.substring 14 2 s), unsigned (String.substring 17 2 s) with
    | Some y, Some mo, Some d, Some h, Some mi, Some se =>
        if (1 <=? y) && (1 <=? mo) && (mo <=? 12) && (1 <=? d)
           && (d <=? Datetime._days_in_month y mo)
           && (h <? 24) && (mi <? 60) && (se <? 60)
        then Some (Datetime.mk y mo d h mi se 0 None)
        else None
    | _, _, _, _, _, _ => None
    end.

Definition newline : string := String (Ascii.ascii_of_nat 10) EmptyString.

Definition error_lines (errors : list (string * string)) : string :=
  fold_right
    (fun fe acc =>
       newline +:+ fst fe +:+ newline +:+ "  " +:+ snd fe
       +:+ " (type=value_error)" +:+ acc)
    "" errors.

Definition error_text (model : string) (errors : list (string * string))
  : string :=
  let n := Z.of_nat (length errors) in
  Datetime.fmt_d 1 n
  +:+ (if n =? 1 then " validation error for " else " validation errors for ")
  +:+ model +:+ error_lines errors.

Definition runtime : Runtime := {|
  fromisoformat := iso_seconds;
  query_datetime := iso_seconds;
  query_int := decimal;
  validation_error_text := error_text;
  coerce_dict := fun _ => None
|}.

Definition record1 : json :=
  JObj [("camera_name", JStr "Camera_01");
        ("event_type", JStr "motion_detected");
        ("timestamp", JStr "2023-10-01T12:34:56")].

Definition record2 : json :=
  JObj [("camera_name", JStr "Camera_01");
        ("event_type", JStr "line_crossed");
        ("timestamp", JStr "2023-10-01T13:00:00")].

Definition hit (id : string) (source : json) : json :=
  JObj [("_index", JStr "deviations"); ("_id", JStr id); ("_source", source)].

(** A cluster that answers a search with its two documents, refuses a
    negative offset, knows the ids 1 and 2, and is green. *)
Definition green_cluster : Cluster := {|
  cluster_ping := true;
  cluster_search := fun _ _ _ from_ =>
    if from_ <? 0 then
      inl "RequestError(400, 'illegal_argument_exception', '[from] parameter cannot be negative')"
    else
      inr (JObj [("hits",
                  JObj [("hits", JArr [hit "1" record1; hit "2" record2])])]);
  cluster_get := fun _ id =>
    if String.eqb id "1" then inr (hit "1" record1)
    else if String.eqb id "2" then inr (hit "2" record2)
    else inl "NotFoundError(404, 'not_found')";
  cluster_health := inr (JObj [("status", JStr "green")])
|}.

Definition deployment : Deployment := {|
  config_ini_exists := true;
  dotenv_exists := true;
  load_dotenv := inr tt;
  config_read := inr tt;
  client_settings := inr green_cluster
|}.

Definition client0 : OpenSearch :=
  {| handle := 0; cluster := green_cluster |}.

Definition fresh : State := {| query := JNull; log := [] |}.

(** A sample Filter Set: a camera name, an empty event type, no camera
    type, and a day of October 2023. *)
Definition filters : DeviationQueryParams.t :=
  DeviationQueryParams.mk (Some "Camera_01") (Some "") None
    (Some (Datetime.mk 2023 10 1 0 0 0 0 None))
    (Some (Datetime.mk 2023 10 1 23 59 59 0 None)) 20 10.

(** The same day with the bounds exchanged. *)
Definition reversed : DeviationQueryParams.t :=
  DeviationQueryParams.mk (Some "Camera_01") None None
    (Some (Datetime.mk 2023 10 1 23 59 59 0 None))
    (Some (Datetime.mk 2023 10 1 0 0 0 0 None)) 10 0.

End Reference.

(** ** The query document in the words of the specification

    The compiled document as section 4.2 of the specification describes it,
    to be compared with what [build_query] leaves in [query]. *)

Definition envelope (clauses : list json) : json :=
  JObj [("query", JObj [("bool", JObj [("must", JArr clauses)])])].

Definition term_clause (field value : string) : json :=
  JObj [("term", JObj [(field, JStr value)])].

Definition range_clause (bounds : list (string * json)) : json :=
  JObj [("range", JObj [("timestamp", JObj bounds)])].

(** Present and non-empty. *)
Definition populated (o : option string) : bool :=
  match o with
  | Some v => negb (String.eqb v "")
  | None => false
  end.

Definition spec_term (field : string) (o : option string) : list json :=
  match o with
  | Some v => if populated o then [term_clause field v] else []
  | None => []
  end.

Definition spec_terms (p : DeviationQueryParams.t) : list json :=
  spec_term "camera_name" p.#DeviationQueryParams.camera_name
  ++ spec_term "event_type" p.#DeviationQueryParams.event_type
  ++ spec_term "camera_type" p.#DeviationQueryParams.camera_type.

Definition spec_range (p : DeviationQueryParams.t) : list json :=
  match p.#DeviationQueryParams.start_time, p.#DeviationQueryParams.end_time with
  | Some st, Some et =>
      [range_clause [("gte", JStr (isoformat st)); ("lte", JStr (isoformat et))]]
  | Some st, None => [range_clause [("gte", JStr (isoformat st))]]
  | None, Some et => [range_clause [("lte", JStr (isoformat et))]]
  | None, None => []
  end.

(** The clause list of a query document, [q["query"]["bool"]["must"]]. *)
Definition must_of (q : json) : list json :=
  match getitem q "query" with
  | inr a =>
      match getitem a "bool" with
      | inr b =>
          match getitem b "must" with
          | inr (JArr clauses) => clauses
          | _ => []
          end
      | inl _ => []
      end
  | inl _ => []
  end.

Definition has_key (k : string) (c : json) : bool :=
  match c with
  | JObj fields => bool_decide (is_Some (assoc k fields))
  | _ => false
  end.

Definition is_term_clause : json -> bool := has_key "term".

Definition is_range_clause : json -> bool := has_key "range".

(** An exact-match clause on [field]. *)
Definition is_term_on (field : string) (c : json) : bool :=
  match c with
  | JObj fields =>
      match assoc "term" fields with
      | Some inner => has_key field inner
      | None => false
      end
  | _ => false
  end.

Definition count (f : json -> bool) (l : list json) : nat :=
  length (List.filter f l).

(** The invariant of a Filter Set: when both bounds are present,
    [start_time <= end_time]. *)
Definition valid (p : DeviationQueryParams.t) : Prop :=
  match p.#DeviationQueryParams.start_time, p.#DeviationQueryParams.end_time with
  | Some st, Some et => Datetime.le st et = inr true
  | _, _ => True
  end.

(** The outcome of the time-range test of lines 230 to 232. *)
Definition time_check (p : DeviationQueryParams.t) : Exception + unit :=
  match p.#DeviationQueryParams.start_time, p.#DeviationQueryParams.end_time with
  | Some st, Some et =>
      match Datetime.gt st et with
      | inl e => inl (Raised e)
      | inr true =>
          inl (HTTPException 400 "start_time deve ser anterior a end_time")
      | inr false => inr tt
      end
  | _, _ => inr tt
  end.

(** What the backend call of [get_deviations] and the reading of its reply
    come to: the list of stored sources, or the exception raised on the
    way. *)
Definition search_outcome (client : OpenSearch) (body : json) (size from_ : Z)
  : PyError + list json :=
  match of_reply (cluster_search (cluster client) "deviations" body size from_) with
  | inl e => inl e
  | inr response => sources response
  end.

(** The Filter Set made of the arguments FastAPI bound. *)
Definition filter_set_of (a : Bound) : DeviationQueryParams.t :=
  DeviationQueryParams.mk (arg_camera_name a) (arg_event_type a)
    (arg_camera_type a) (arg_start_time a) (arg_end_time a)
    (arg_size a) (arg_from_ a).

(** The handler called with the fields of a Filter Set. *)
Definition run_get_deviations {rt : Runtime} (p : DeviationQueryParams.t)
    (client : OpenSearch) (s : State) : (Exception + json) * State :=
  get_deviations p.#DeviationQueryParams.camera_name
    p.#DeviationQueryParams.event_type p.#DeviationQueryParams.camera_type
    (time_of p.#DeviationQueryParams.start_time)
    (time_of p.#DeviationQueryParams.end_time)
    p.#DeviationQueryParams.size p.#DeviationQueryParams.from_ client s.

(** [s1] is contained in [s2]. *)
Definition contains (s1 s2 : string) : Prop :=
  exists before after, s2 = before +:+ s1 +:+ after.

(** An event a handler may leave when it runs with the client [h]: a call
    on that client or a logging line, never a new client. *)
Definition call_on (h : nat) (ev : Event) : bool :=
  match ev with
  | EvSearch h' _ _ _ _ | EvGet h' _ _ | EvClusterHealth h' => Nat.eqb h h'
  | EvLogError _ => true
  | EvNewClient _ | EvPing _ => false
  end.

(** The text [fmt_d] prints is as wide as asked and reads back as the
    number printed. *)
Definition reads_back (w : nat) (n : Z) : bool :=
  Nat.eqb (String.length (Datetime.fmt_d w n)) w
  && match Reference.unsigned (Datetime.fmt_d w n) with
     | Some m => m =? n
     | None => false
     end.

(** A naive datetime with whole seconds and every field in its range. *)
Definition seconds_precision (t : datetime) : Prop :=
  1 <= year t <= 9999 /\ 1 <= month t <= 12
  /\ 1 <= day t <= Datetime._days_in_month (year t) (month t)
  /\ 0 <= hour t < 24 /\ 0 <= minute t < 60 /\ 0 <= second t < 60
  /\ microsecond t = 0 /\ utcoffset t = None.

(** ** The tunnel and the start of the server

    Lines 12 to 18 (the import of pyngrok), [setup_ngrok] and the [__main__]
    block.  What they do shows as a list of effects: lines printed or
    logged, calls into pyngrok, the call that starts the server. *)

Inductive Effect : Type :=
| Print (line : string)
| LogInfo (line : string)
| LogWarning (line : string)
| LogError (line : string)
| SetAuthToken (token : string)
| Connect (port : Z) (proto domain : string)
| UvicornRun (host : string) (port : Z).

(** The tunnel object [ngrok.connect] returns; [tunnel_text] is what an
    f-string prints for it.  An object of this class is always true. *)
Record Tunnel : Type := {
  tunnel_text : string
}.

(** pyngrok as the script finds it: whether the import succeeded, the
    value of NGROK_AUTH_TOKEN in the environment, and what the two calls do,
    [inl text] being an exception with [str(e) = text]. *)
Record Ngrok : Type := {
  ngrok_available : bool;
  NGROK_AUTH_TOKEN : option string;
  set_auth_token : string -> string + unit;
  connect : Z -> string -> string -> string + Tunnel
}.

Module Boot.

Definition B (E A : Type) : Type := list Effect -> (E + A) * list Effect.

Definition ret {E A} (x : A) : B E A := fun out => (inr x, out).

Definition raise {E A} (e : E) : B E A := fun out => (inl e, out).

Definition bind {E A B'} (c : B E A) (k : A -> B E B') : B E B' :=
  fun out =>
    match c out with
    | (inl e, out') => (inl e, out')
    | (inr x, out') => k x out'
    end.

Definition try_except {E E' A} (c : B E A) (h : E -> B E' A) : B E' A :=
  fun out =>
    match c out with
    | (inl e, out') => h e out'
    | (inr x, out') => (inr x, out')
    end.

Definition emit {E} (eff : Effect) : B E unit :=
  fun out => (inr tt, out ++ [eff]).

Definition call {E A} (r : E + A) : B E A :=
  fun out => (r, out).

End Boot.

Declare Scope boot_scope.
Delimit Scope boot_scope with boot.
Notation "x <- c ;; k" := (Boot.bind c (fun x => k))
  (at level 100, c at next level, right associativity) : boot_scope.
Notation "c ;; k" := (Boot.bind c (fun _ => k))
  (at level 100, right associativity) : boot_scope.

(** [str(port)] for a port number. *)
Definition int_text (n : Z) : string := NilZero.string_of_int (Z.to_int n).

Definition ngrok_domain : string := "elephant-moved-informally.ngrok-free.app".

(** The body of the [try] of [setup_ngrok]; the exceptions are those of
    pyngrok, carried as their text. *)
Definition setup_ngrok_try (ng : Ngrok) (port : Z) : Boot.B string (option Tunnel) :=
  (let ngrok_token := NGROK_AUTH_TOKEN ng in
   match ngrok_token with
   | Some token =>
       if String.eqb token "" then Boot.ret tt
       else Boot.emit (SetAuthToken token) ;; Boot.call (set_auth_token ng token)
   | None => Boot.ret tt
   end ;;
   Boot.emit (Connect port "http" ngrok_domain) ;;
   public_url <- Boot.call (connect ng port "http" ngrok_domain) ;;
   Boot.emit (LogInfo ("Ngrok tunnel ativo! URL pública: " +:+ tunnel_text public_url)) ;;
   Boot.ret (Some public_url))%boot.

(** [setup_ngrok(port)].  The type lets it raise; that it does not is a
    property proved below. *)
Definition setup_ngrok (ng : Ngrok) (port : Z) : Boot.B string (option Tunnel) :=
  if negb (ngrok_available ng) then
    (Boot.emit
       (LogWarning
          "Ngrok não está disponível. Certifique-se de que o pyngrok está instalado.") ;;
     Boot.ret None)%boot
  else
    Boot.try_except (setup_ngrok_try ng port)
      (fun e =>
         (Boot.emit (LogError ("Erro ao iniciar o Ngrok: " +:+ e)) ;;
          Boot.ret None)%boot).

(** The [__main__] block. *)
Definition main (ng : Ngrok) : Boot.B string unit :=
  (let host := "0.0.0.0" in
   let port := 8000 in
   (if ngrok_available ng then
      ngrok_url <- setup_ngrok ng port ;;
      match ngrok_url with
      | Some url =>
          Boot.emit (LogInfo ("API disponível externamente em: " +:+ tunnel_text url)) ;;
          Boot.emit
            (LogInfo ("Documentação disponível em: " +:+ tunnel_text url +:+ "/docs"))
      | None =>
          Boot.emit
            (LogWarning
               "Falha ao iniciar o Ngrok. A API só estará disponível localmente.")
      end
    else Boot.ret tt) ;;
   Boot.emit
     (LogInfo ("Servidor iniciando em: http://" +:+ host +:+ ":" +:+ int_text port)) ;;
   Boot.emit
     (LogInfo
        ("Documentação disponível em: http://" +:+ host +:+ ":" +:+ int_text port
         +:+ "/docs")) ;;
   Boot.emit (UvicornRun host port))%boot.

(** [python main.py]: the import of pyngrok, the two file checks of the
    module, then the [__main__] block.  An exception of the checks ends the
    process. *)
Definition script (d : Deployment) (ng : Ngrok) : Boot.B PyError unit :=
  ((if ngrok_available ng then Boot.ret tt
    else
      Boot.emit
        (Print
           "Ngrok não está instalado. Execute 'pip install pyngrok' para habilitar o túnel Ngrok.")) ;;
   Boot.call (module_init d) ;;
   Boot.try_except (main ng) (fun e => Boot.raise (PlainException e)))%boot.

(** What becomes of the auth token in [setup_ngrok]: the text of the
    exception [ngrok.set_auth_token] raises on it, or [None] when no token is
    handed over or pyngrok takes it. *)
Definition token_refusal (ng : Ngrok) : option string :=
  match NGROK_AUTH_TOKEN ng with
  | Some token =>
      if String.eqb token "" then None
      else
        match set_auth_token ng token with
        | inl e => Some e
        | inr _ => None
        end
  | None => None
  end.

Definition is_ngrok_call (eff : Effect) : bool :=
  match eff with
  | SetAuthToken _ | Connect _ _ _ => true
  | _ => false
  end.

Definition is_uvicorn_run (eff : Effect) : bool :=
  match eff with
  | UvicornRun _ _ => true
  | _ => false
  end.

(** ** Further notions used by the properties *)

(** Whether [get_opensearch_client] can hand over a client: the settings
    are readable and the cluster answers the ping. *)
Definition acquirable (d : Deployment) : bool :=
  match client_settings d with
  | inr cl => cluster_ping cl
  | inl _ => false
  end.

Definition is_log_error (ev : Event) : bool :=
  match ev with
  | EvLogError _ => true
  | _ => false
  end.

(** A call a handler makes on the cluster: search, get or health. *)
Definition is_backend_call (ev : Event) : bool :=
  match ev with
  | EvSearch _ _ _ _ _ | EvGet _ _ _ | EvClusterHealth _ => true
  | _ => false
  end.

(** How many such calls a log holds. *)
Definition calls_made (l : list Event) : nat :=
  length (List.filter is_backend_call l).

(** The names the signature of [get_deviations] declares. *)
Definition declared_names : list string :=
  ["camera_name"; "event_type"; "camera_type"; "start_time"; "end_time";
   "size"; "from"].

(** ** More sample data *)

Module Samples.

(** A cluster whose second hit carries no [_source]. *)
Definition ragged_cluster : Cluster := {|
  cluster_ping := true;
  cluster_search := fun _ _ _ _ =>
    inr (JObj [("hits",
                JObj [("hits",
                       JArr [Reference.hit "1" Reference.record1;
                             JObj [("_index", JStr "deviations"); ("_id", JStr "2")];
                             Reference.hit "3" Reference.record2])])]);
  cluster_get := fun _ _ => inl "NotFoundError(404, 'not_found')";
  cluster_health := inr (JObj [("cluster_name", JStr "deviations")])
|}.

Definition ragged_client : OpenSearch :=
  {| handle := 0; cluster := ragged_cluster |}.

(** A cluster whose documents are stored with a text as [_source]. *)
Definition text_cluster : Cluster := {|
  cluster_ping := true;
  cluster_search := fun _ _ _ _ =>
    inr (JObj [("hits",
                JObj [("hits",
                       JArr [Reference.hit "1" Reference.record1;
                             Reference.hit "2" (JStr "abc")])])]);
  cluster_get := fun _ id => inr (Reference.hit id (JStr "abc"));
  cluster_health := inr (JObj [("status", JStr "green")])
|}.

Definition text_deployment : Deployment := {|
  config_ini_exists := true;
  dotenv_exists := true;
  load_dotenv := inr tt;
  config_read := inr tt;
  client_settings := inr text_cluster
|}.

(** Both files there, and a config.ini that opens with a key. *)
Definition malformed_deployment : Deployment := {|
  config_ini_exists := true;
  dotenv_exists := true;
  load_dotenv := inr tt;
  config_read :=
    inl (ConfigParserError
           "File contains no section headers.");
  client_settings := inr Reference.green_cluster
|}.

(** Noon of one day, once for start and end. *)
Definition noon : datetime := Datetime.mk 2023 10 1 12 0 0 0 None.

Definition one_instant : DeviationQueryParams.t :=
  DeviationQueryParams.mk None None None (Some noon) (Some noon) 10 0.

(** An aware start against a naive end. *)
Definition mixed : DeviationQueryParams.t :=
  DeviationQueryParams.mk None None None
    (Some (Datetime.mk 2023 10 1 0 0 0 0 (Some 0)))
    (Some (Datetime.mk 2023 10 1 23 59 59 0 None)) 10 0.

(** pyngrok installed, a token in the environment, a tunnel that opens. *)
Definition ngrok_ok : Ngrok := {|
  ngrok_available := true;
  NGROK_AUTH_TOKEN := Some "2abc";
  set_auth_token := fun _ => inr tt;
  connect := fun _ _ _ =>
    inr {| tunnel_text := "NgrokTunnel: https://elephant-moved-informally.ngrok-free.app" |}
|}.

(** pyngrok installed, no token, and a connect that fails. *)
Definition ngrok_refused : Ngrok := {|
  ngrok_available := true;
  NGROK_AUTH_TOKEN := None;
  set_auth_token := fun _ => inr tt;
  connect := fun _ _ _ => inl "The ngrok process errored on start"
|}.

End Samples.

(** * Properties *)

(** ** Runs of the model on concrete input *)

Example isoformat_naive :
  isoformat (Datetime.mk 2023 10 1 0 0 0 0 None) = "2023-10-01T00:00:00".
Proof. reflexivity. Qed.

Example isoformat_aware :
  isoformat (Datetime.mk 2023 10 1 23 59 59 250 (Some (-12600000000)))
  = "2023-10-01T23:59:59.000250-03:30".
Proof. reflexivity. Qed.

Example decimal_samples :
  map Reference.decimal ["0"; "101"; "-1"; "100"; "abc"; ""; "1x"]
  = [Some 0; Some 101; Some (-1); Some 100; None; None; None].
Proof. reflexivity. Qed.

Example iso_seconds_samples :
  map Reference.iso_seconds ["2023-10-01T23:59:59"; "not-a-date"; "2023-02-29T00:00:00"]
  = [Some (Datetime.mk 2023 10 1 23 59 59 0 None); None; None].
Proof. reflexivity. Qed.

Example list_two_records :
  serve (rt := Reference.runtime) Reference.deployment (GET_deviations {[ "camera_name" := "Camera_01" ]}) []
  = (Ok (JObj [("deviations", JArr [Reference.record1; Reference.record2])]),
     [EvNewClient 0; EvPing 0;
      EvSearch 0 "deviations"
        (JObj [("query",
                JObj [("bool",
                       JObj [("must",
                              JArr [JObj [("term",
                                           JObj [("camera_name", JStr "Camera_01")])]])])])])
        10 0]).
Proof. vm_compute. reflexivity. Qed.

Example empty_query_string :
  serve (rt := Reference.runtime) Reference.deployment (GET_deviations ∅) []
  = (Ok (JObj [("deviations", JArr [Reference.record1; Reference.record2])]),
     [EvNewClient 0; EvPing 0;
      EvSearch 0 "deviations"
        (JObj [("query", JObj [("bool", JObj [("must", JArr [])])])]) 10 0]).
Proof. vm_compute. reflexivity. Qed.

Example reversed_bounds_400 :
  serve (rt := Reference.runtime) Reference.deployment
    (GET_deviations {[ "start_time" := "2023-10-01T23:59:59";
                       "end_time" := "2023-10-01T00:00:00" ]}) []
  = (ErrorDetail 400 "start_time deve ser anterior a end_time",
     [EvNewClient 0; EvPing 0]).
Proof. vm_compute. reflexivity. Qed.

Example sizes_through_the_route :
  map (fun raw =>
         status_of (fst (serve (rt := Reference.runtime) Reference.deployment
                           (GET_deviations {[ "size" := raw ]}) [])))
      ["0"; "101"; "-1"; "abc"; "1"; "100"]
  = [422; 422; 422; 422; 200; 200].
Proof. vm_compute. reflexivity. Qed.

Example unknown_id_404 :
  serve (rt := Reference.runtime) Reference.deployment
    (GET_deviation_by_id "unknown-id") []
  = (ErrorDetail 404 "Desvio não encontrado: NotFoundError(404, 'not_found')",
     [EvNewClient 0; EvPing 0; EvGet 0 "deviations" "unknown-id";
      EvLogError "Desvio não encontrado: NotFoundError(404, 'not_found')"]).
Proof. vm_compute. reflexivity. Qed.

Example known_id_verbatim :
  fst (serve (rt := Reference.runtime) Reference.deployment
         (GET_deviation_by_id "2") [])
  = Ok Reference.record2.
Proof. vm_compute. reflexivity. Qed.

Example health_green :
  fst (serve (rt := Reference.runtime) Reference.deployment GET_health [])
  = Ok (JObj [("status", JStr "healthy");
              ("opensearch_status", JStr "green");
              ("version", JStr "1.0.0")]).
Proof. vm_compute. reflexivity. Qed.

(** ** Ordering of datetimes *)

Lemma le_iff_not_gt (a b : datetime) :
  Datetime.le a b = inr true <-> Datetime.gt a b = inr false.
Proof.
  unfold Datetime.le, Datetime.gt.
  destruct (Datetime._cmp a b) as [e | c]; [split; discriminate |].
  destruct (Z.leb_spec c 0), (Z.ltb_spec 0 c); split; intros; try reflexivity;
    try discriminate; lia.
Qed.

Lemma gt_decided (a b : datetime) (r : bool) :
  Datetime.gt a b = inr r -> Datetime.le a b = inr (negb r).
Proof.
  unfold Datetime.le, Datetime.gt.
  destruct (Datetime._cmp a b) as [e | c]; [discriminate |].
  intros [= <-]. f_equal.
  destruct (Z.leb_spec c 0), (Z.ltb_spec 0 c); try reflexivity; lia.
Qed.

(** ** What [isoformat] prints

    On a naive datetime with whole seconds the text is the ISO 8601 form
    [YYYY-MM-DDTHH:MM:SS]: the reference reader gets the datetime back. *)

Lemma reads_back_below (w : nat) (bound n : Z) :
  forallb (fun k => reads_back w (Z.of_nat k)) (List.seq 0 (Z.to_nat bound)) = true ->
  0 <= n < bound -> reads_back w n = true.
Proof.
  intros Hall Hn. rewrite List.forallb_forall in Hall.
  specialize (Hall (Z.to_nat n)). rewrite Z2Nat.id in Hall by lia.
  apply Hall. apply List.in_seq. lia.
Qed.

Lemma two_digits (n : Z) :
  0 <= n < 100 ->
  exists a b, Datetime.fmt_d 2 n = String a (String b "")
              /\ Reference.unsigned (String a (String b "")) = Some n.
Proof.
  intros Hn.
  assert (H : reads_back 2 n = true).
  { apply (reads_back_below 2 100); [vm_compute; reflexivity | lia]. }
  unfold reads_back in H. apply andb_prop in H as [Hlen Hval].
  destruct (Datetime.fmt_d 2 n) as [| a [| b [| c r]]]; try discriminate.
  exists a, b. split; [reflexivity |].
  destruct (Reference.unsigned _) as [m |]; [| discriminate].
  apply Z.eqb_eq in Hval. congruence.
Qed.

Lemma four_digits (n : Z) :
  0 <= n < 10000 ->
  exists a b c d,
    Datetime.fmt_d 4 n = String a (String b (String c (String d "")))
    /\ Reference.unsigned (String a (String b (String c (String d "")))) = Some n.
Proof.
  intros Hn.
  assert (H : reads_back 4 n = true).
  { apply (reads_back_below 4 10000); [vm_compute; reflexivity | lia]. }
  unfold reads_back in H. apply andb_prop in H as [Hlen Hval].
  destruct (Datetime.fmt_d 4 n) as [| a [| b [| c [| d [| e r]]]]]; try discriminate.
  exists a, b, c, d. split; [reflexivity |].
  destruct (Reference.unsigned _) as [m |]; [| discriminate].
  apply Z.eqb_eq in Hval. congruence.
Qed.

Lemma isoformat_reads_back (t : datetime) :
  seconds_precision t -> Reference.iso_seconds (isoformat t) = Some t.
Proof.
  intros (Hy & Hmo & Hd & Hh & Hmi & Hs & Hus & Hoff).
  assert (Hdim : Datetime._days_in_month (year t) (month t) < 100).
  { unfold Datetime._days_in_month.
    destruct (_ && _); [lia |].
    assert (Hm : (Z.to_nat (month t) < 13)%nat) by lia.
    destruct (Z.to_nat (month t)) as [| [| [| [| [| [| [| [| [| [| [| [| [| k]]]]]]]]]]]]];
      cbn; lia. }
  destruct (four_digits (year t)) as (y1 & y2 & y3 & y4 & Ey & Ry); [lia |].
  destruct (two_digits (month t)) as (m1 & m2 & Em & Rm); [lia |].
  destruct (two_digits (day t)) as (d1 & d2 & Ed & Rd); [lia |].
  destruct (two_digits (hour t)) as (h1 & h2 & Eh & Rh); [lia |].
  destruct (two_digits (minute t)) as (i1 & i2 & Ei & Ri); [lia |].
  destruct (two_digits (second t)) as (s1 & s2 & Es & Rs); [lia |].
  unfold isoformat, Datetime._format_time, Datetime._format_offset.
  rewrite Ey, Em, Ed, Eh, Ei, Es, Hus, Hoff.
  unfold Reference.iso_seconds.
  cbv [String.append String.length Nat.eqb negb Reference.char_at
       String.substring String.eqb Ascii.eqb Bool.eqb andb Z.eqb].
  rewrite Ry, Rm, Rd, Rh, Ri, Rs.
  repeat match goal with
    | |- context [?a <=? ?b] =>
        replace (a <=? b) with true by (symmetry; apply Z.leb_le; lia)
    | |- context [?a <? ?b] =>
        replace (a <? b) with true by (symmetry; apply Z.ltb_lt; lia)
    end.
  destruct t; cbn in *; subst; reflexivity.
Qed.

Section Runs.

Context {rt : Runtime}.

(** ** The [response_model] pass *)

(** What a handler returned is answered 200, or 500 when the pass refuses
    it. *)
Lemma respond_returned (m : option shape) (v : json) :
  (exists validated, respond m (inr v) = Ok validated)
  \/ respond m (inr v) = InternalServerError.
Proof.
  unfold respond. destruct m as [m |]; [| eauto].
  destruct (validate m v); eauto.
Qed.

Lemma respond_returned_not_400 (m : option shape) (v : json) :
  status_of (respond m (inr v)) <> 400.
Proof.
  destruct (respond_returned m v) as [[validated ->] | ->]; discriminate.
Qed.

Lemma traverse_items (fields : list (string * json)) :
  traverse (fun kv => pair (fst kv) <$> validate TAny (snd kv)) fields
  = Some fields.
Proof.
  induction fields as [| [k v] fields IH]; [reflexivity |].
  cbn [traverse]. rewrite IH. reflexivity.
Qed.

(** A dict goes through [Dict[str, Any]] as it is. *)
Lemma validate_dict (fields : list (string * json)) :
  validate (TDict TAny) (JObj fields) = Some (JObj fields).
Proof. cbn [validate]. rewrite traverse_items. reflexivity. Qed.

(** ** What [build_query] leaves behind *)

Lemma build_query_run (p : DeviationQueryParams.t) (s : State) :
  build_query p s =
  match time_check p with
  | inl e => (inl e, {| query := envelope (spec_terms p); log := log s |})
  | inr tt =>
      (inr tt, {| query := envelope (spec_terms p ++ spec_range p); log := log s |})
  end.
Proof.
  destruct p as [cn ev ct st et sz fr]. unfold time_check, spec_terms, spec_range.
  cbn [DeviationQueryParams.start_time DeviationQueryParams.end_time
       DeviationQueryParams.camera_name DeviationQueryParams.event_type
       DeviationQueryParams.camera_type].
  destruct cn as [cn |], ev as [ev |], ct as [ct |];
    unfold spec_term, populated;
    repeat match goal with
      | |- context [String.eqb ?v ""] =>
          is_var v; destruct (String.eqb v "") eqn:?
      end;
    destruct st as [st |], et as [et |];
    try (destruct (Datetime.gt st et) as [e | []] eqn:Hgt);
    unfold build_query, bind, when, if_truthy;
    cbn [DeviationQueryParams.start_time DeviationQueryParams.end_time
         DeviationQueryParams.camera_name DeviationQueryParams.event_type
         DeviationQueryParams.camera_type];
    repeat match goal with
      | H : String.eqb _ _ = _ |- _ => rewrite H
      | H : Datetime.gt _ _ = _ |- _ => rewrite H
      end;
    reflexivity.
Qed.

Lemma init_typed (cn ev ct : option string) (st et : option datetime) (sz fr : Z) :
  DeviationQueryParams.init cn ev ct (time_of st) (time_of et) sz fr
  = inr (DeviationQueryParams.mk cn ev ct st et sz fr).
Proof. destruct st, et; reflexivity. Qed.

(** ** The whole of [get_deviations] on a Filter Set *)

Lemma run_get_deviations_eq (p : DeviationQueryParams.t) (client : OpenSearch)
    (s : State) :
  run_get_deviations p client s =
  match time_check p with
  | inl (HTTPException code detail) =>
      (inl (HTTPException code detail),
       {| query := envelope (spec_terms p); log := log s |})
  | inl (Raised e) =>
      (inl (HTTPException 500 ("Erro ao consultar OpenSearch: " +:+ str e)),
       {| query := envelope (spec_terms p);
          log := log s ++ [EvLogError ("Erro ao consultar OpenSearch: " +:+ str e)] |})
  | inr tt =>
      let body := envelope (spec_terms p ++ spec_range p) in
      let sent :=
        EvSearch (handle client) "deviations" body
          p.#DeviationQueryParams.size p.#DeviationQueryParams.from_ in
      match search_outcome client body p.#DeviationQueryParams.size
              p.#DeviationQueryParams.from_ with
      | inr deviations =>
          (inr (JObj [("deviations", JArr deviations)]),
           {| query := body; log := log s ++ [sent] |})
      | inl e =>
          (inl (HTTPException 500 ("Erro ao consultar OpenSearch: " +:+ str e)),
           {| query := body;
              log := (log s ++ [sent])
                     ++ [EvLogError ("Erro ao consultar OpenSearch: " +:+ str e)] |})
      end
  end.
Proof.
  unfold run_get_deviations, get_deviations, get_deviations_try, try_except.
  unfold bind at 1. rewrite init_typed.
  replace (DeviationQueryParams.mk _ _ _ _ _ _ _) with p by (destruct p; reflexivity).
  cbn [lift]. unfold bind at 1. rewrite build_query_run.
  destruct (time_check p) as [[code detail | e] | []]; [reflexivity | reflexivity |].
  unfold search_outcome, client_search, bind, emit, get_query, lift, ret.
  cbn [query log].
  destruct (of_reply _) as [e | response]; [reflexivity |].
  destruct (sources response) as [e | deviations]; reflexivity.
Qed.

Lemma valid_passes (p : DeviationQueryParams.t) :
  valid p -> time_check p = inr tt.
Proof.
  unfold valid, time_check.
  destruct (p.#DeviationQueryParams.start_time) as [st |],
           (p.#DeviationQueryParams.end_time) as [et |]; try reflexivity.
  intros Hle. apply le_iff_not_gt in Hle. rewrite Hle. reflexivity.
Qed.

Lemma must_of_envelope (clauses : list json) : must_of (envelope clauses) = clauses.
Proof. reflexivity. Qed.

(** The query dict a valid Filter Set ends with. *)
Lemma query_of_valid (p : DeviationQueryParams.t) (client : OpenSearch) (s : State) :
  valid p ->
  query (snd (run_get_deviations p client s))
  = envelope (spec_terms p ++ spec_range p).
Proof.
  intros Hv. rewrite run_get_deviations_eq, (valid_passes p Hv). cbv zeta.
  destruct (search_outcome _ _ _ _); reflexivity.
Qed.

(** ** Clauses and their kinds *)

Lemma spec_term_all_terms (field : string) (o : option string) :
  List.filter is_term_clause (spec_term field o) = spec_term field o.
Proof.
  unfold spec_term. destruct o as [v |]; [| reflexivity].
  destruct (populated (Some v)); reflexivity.
Qed.

Lemma spec_term_no_range (field : string) (o : option string) :
  List.filter is_range_clause (spec_term field o) = [].
Proof.
  unfold spec_term. destruct o as [v |]; [| reflexivity].
  destruct (populated (Some v)); reflexivity.
Qed.

Lemma spec_range_all_ranges (p : DeviationQueryParams.t) :
  List.filter is_range_clause (spec_range p) = spec_range p.
Proof.
  unfold spec_range.
  destruct (p.#DeviationQueryParams.start_time),
           (p.#DeviationQueryParams.end_time); reflexivity.
Qed.

Lemma spec_range_no_term (p : DeviationQueryParams.t) :
  List.filter is_term_clause (spec_range p) = [].
Proof.
  unfold spec_range.
  destruct (p.#DeviationQueryParams.start_time),
           (p.#DeviationQueryParams.end_time); reflexivity.
Qed.

Lemma spec_range_no_term_on (field : string) (p : DeviationQueryParams.t) :
  List.filter (is_term_on field) (spec_range p) = [].
Proof.
  unfold spec_range.
  destruct (p.#DeviationQueryParams.start_time),
           (p.#DeviationQueryParams.end_time); reflexivity.
Qed.

(** How many clauses of [spec_term field' o] match exactly on [field]. *)
Lemma count_spec_term (field field' : string) (o : option string) :
  count (is_term_on field) (spec_term field' o)
  = if String.eqb field field' && populated o then 1%nat else 0%nat.
Proof.
  unfold count, spec_term. destruct o as [v |].
  - destruct (populated (Some v)).
    + cbn. destruct (String.eqb field field'); reflexivity.
    + rewrite andb_false_r. reflexivity.
  - rewrite andb_false_r. reflexivity.
Qed.

Lemma count_app (f : json -> bool) (l1 l2 : list json) :
  count f (l1 ++ l2) = (count f l1 + count f l2)%nat.
Proof. unfold count. rewrite List.filter_app, length_app. reflexivity. Qed.

Lemma count_terms_on (field : string) (p : DeviationQueryParams.t) :
  count (is_term_on field) (spec_terms p ++ spec_range p)
  = ((if String.eqb field "camera_name"
         && populated p.#DeviationQueryParams.camera_name then 1 else 0)
     + (if String.eqb field "event_type"
           && populated p.#DeviationQueryParams.event_type then 1 else 0)
     + (if String.eqb field "camera_type"
           && populated p.#DeviationQueryParams.camera_type then 1 else 0))%nat.
Proof.
  unfold spec_terms. rewrite !count_app, !count_spec_term.
  unfold count. rewrite spec_range_no_term_on. cbn [length]. lia.
Qed.

(** ** The compiled query document *)

(** C1: for every valid Filter Set, the query document [get_deviations]
    builds holds exactly one exact-match (term) clause for each of
    camera_name, event_type and camera_type that is present and non-empty,
    and no other term clause; the clauses stand in the order camera_name,
    event_type, camera_type, followed by the time-range clause. *)
Theorem C1_term_clauses (p : DeviationQueryParams.t) (client : OpenSearch)
    (s : State) :
  valid p ->
  let clauses := must_of (query (snd (run_get_deviations p client s))) in
  clauses = (spec_terms p ++ spec_range p)%list
  /\ List.filter is_term_clause clauses = spec_terms p
  /\ count (is_term_on "camera_name") clauses
     = (if populated p.#DeviationQueryParams.camera_name then 1 else 0)%nat
  /\ count (is_term_on "event_type") clauses
     = (if populated p.#DeviationQueryParams.event_type then 1 else 0)%nat
  /\ count (is_term_on "camera_type") clauses
     = (if populated p.#DeviationQueryParams.camera_type then 1 else 0)%nat
  /\ (forall field : string,
        field <> "camera_name" -> field <> "event_type" ->
        field <> "camera_type" ->
        count (is_term_on field) clauses = 0%nat).
Proof.
  intros Hv clauses. subst clauses.
  rewrite (query_of_valid p client s Hv), must_of_envelope.
  split; [reflexivity |].
  split.
  { unfold spec_terms.
    rewrite !List.filter_app, !spec_term_all_terms, spec_range_no_term.
    rewrite app_nil_r. reflexivity. }
  repeat split.
  - rewrite count_terms_on. cbn.
    destruct (populated _); reflexivity.
  - rewrite count_terms_on. cbn.
    destruct (populated p.#DeviationQueryParams.event_type); reflexivity.
  - rewrite count_terms_on. cbn.
    destruct (populated p.#DeviationQueryParams.camera_type); lia.
  - intros field H1 H2 H3. rewrite count_terms_on.
    apply String.eqb_neq in H1, H2, H3. rewrite H1, H2, H3. reflexivity.
Qed.

(** C2: for every valid Filter Set, the query document holds exactly one
    range clause on timestamp when a time bound is present and none
    otherwise: both bounds give gte and lte, the lower bound alone gives gte
    only, the upper bound alone gives lte only, each bound being the
    isoformat text of the datetime. *)
Theorem C2_range_clause (p : DeviationQueryParams.t) (client : OpenSearch)
    (s : State) :
  valid p ->
  let clauses := must_of (query (snd (run_get_deviations p client s))) in
  List.filter is_range_clause clauses
  = match p.#DeviationQueryParams.start_time, p.#DeviationQueryParams.end_time with
    | Some st, Some et =>
        [JObj [("range",
                JObj [("timestamp",
                       JObj [("gte", JStr (isoformat st));
                             ("lte", JStr (isoformat et))])])]]
    | Some st, None =>
        [JObj [("range",
                JObj [("timestamp", JObj [("gte", JStr (isoformat st))])])]]
    | None, Some et =>
        [JObj [("range",
                JObj [("timestamp", JObj [("lte", JStr (isoformat et))])])]]
    | None, None => []
    end.
Proof.
  intros Hv clauses. subst clauses.
  rewrite (query_of_valid p client s Hv), must_of_envelope.
  unfold spec_terms.
  rewrite !List.filter_app, !spec_term_no_range, spec_range_all_ranges.
  reflexivity.
Qed.

End Runs.

Lemma C1_term_clauses_witness :
  valid Reference.filters
  /\ must_of (query (snd (run_get_deviations (rt := Reference.runtime)
                            Reference.filters Reference.client0 Reference.fresh)))
     = [JObj [("term", JObj [("camera_name", JStr "Camera_01")])];
        JObj [("range",
               JObj [("timestamp",
                      JObj [("gte", JStr "2023-10-01T00:00:00");
                            ("lte", JStr "2023-10-01T23:59:59")])])]].
Proof.
  split; [reflexivity |].
  exact (proj1 (C1_term_clauses (rt := Reference.runtime) Reference.filters
                  Reference.client0 Reference.fresh eq_refl)).
Defined.

Lemma C2_range_clause_witness :
  valid Reference.filters
  /\ List.filter is_range_clause
       (must_of (query (snd (run_get_deviations (rt := Reference.runtime)
                               Reference.filters Reference.client0 Reference.fresh))))
     = [JObj [("range",
               JObj [("timestamp",
                      JObj [("gte", JStr "2023-10-01T00:00:00");
                            ("lte", JStr "2023-10-01T23:59:59")])])]].
Proof.
  split; [reflexivity |].
  exact (C2_range_clause (rt := Reference.runtime) Reference.filters
           Reference.client0 Reference.fresh eq_refl).
Defined.

(** ** Around the handlers: the dependency and the binding *)

Section RouteFacts.

Context {rt : Runtime}.

Lemma client_acquired (d : Deployment) (cl : Cluster) (s : State) :
  client_settings d = inr cl -> cluster_ping cl = true ->
  get_opensearch_client d s
  = (inr {| handle := clients_built (log s); cluster := cl |},
     {| query := query s;
        log := log s ++ [EvNewClient (clients_built (log s));
                         EvPing (clients_built (log s))] |}).
Proof.
  intros Hs Hp.
  unfold get_opensearch_client, OpenSearch_new, client_ping, bind, emit, lift, ret,
    get_log.
  rewrite Hs. cbn. rewrite Hp. cbn. rewrite <- app_assoc. reflexivity.
Qed.

Lemma client_unreachable (d : Deployment) (cl : Cluster) (s : State) :
  client_settings d = inr cl -> cluster_ping cl = false ->
  get_opensearch_client d s
  = (inl (PlainException "Não foi possível conectar ao OpenSearch!"),
     {| query := query s;
        log := log s ++ [EvNewClient (clients_built (log s));
                         EvPing (clients_built (log s))] |}).
Proof.
  intros Hs Hp.
  unfold get_opensearch_client, OpenSearch_new, client_ping, bind, emit, lift, ret,
    raise, get_log.
  rewrite Hs. cbn. rewrite Hp. cbn. rewrite <- app_assoc. reflexivity.
Qed.

Lemma serve_get_deviations (d : Deployment) (cl : Cluster)
    (q : gmap string string) (a : Bound) (w : list Event) :
  client_settings d = inr cl -> cluster_ping cl = true ->
  bind_get_deviations q = inr a ->
  let n := clients_built w in
  let run :=
    run_get_deviations (filter_set_of a) {| handle := n; cluster := cl |}
      {| query := JNull; log := w ++ [EvNewClient n; EvPing n] |} in
  serve d (GET_deviations q) w
  = (respond deviations_model (fst run), log (snd run)).
Proof.
  intros Hs Hp Hb n run. unfold serve.
  rewrite (client_acquired d cl _ Hs Hp), Hb. cbn [log query].
  subst run. unfold run_get_deviations, filter_set_of.
  cbn [DeviationQueryParams.camera_name DeviationQueryParams.event_type
       DeviationQueryParams.camera_type DeviationQueryParams.start_time
       DeviationQueryParams.end_time DeviationQueryParams.size
       DeviationQueryParams.from_].
  destruct (get_deviations _ _ _ _ _ _ _ _ _) as [out s']. reflexivity.
Qed.

Lemma serve_rejected (d : Deployment) (cl : Cluster)
    (q : gmap string string) (errors : list location) (w : list Event) :
  client_settings d = inr cl -> cluster_ping cl = true ->
  bind_get_deviations q = inl errors ->
  serve d (GET_deviations q) w
  = (UnprocessableEntity errors,
     w ++ [EvNewClient (clients_built w); EvPing (clients_built w)]).
Proof.
  intros Hs Hp Hb. unfold serve.
  rewrite (client_acquired d cl _ Hs Hp), Hb. reflexivity.
Qed.

(** A cluster that does not answer the ping: the dependency raises before
    any parameter is looked at, whatever the request. *)
Lemma serve_unreachable (d : Deployment) (cl : Cluster) (r : Request)
    (w : list Event) :
  client_settings d = inr cl -> cluster_ping cl = false ->
  serve d r w
  = (InternalServerError,
     w ++ [EvNewClient (clients_built w); EvPing (clients_built w)]).
Proof.
  intros Hs Hp. unfold serve. rewrite (client_unreachable d cl _ Hs Hp).
  reflexivity.
Qed.

(** The empty query string binds to the defaults. *)
Lemma bind_empty :
  bind_get_deviations ∅ = inr (Build_Bound None None None None None 10 0).
Proof.
  unfold bind_get_deviations, param_str, param_datetime, param_int.
  rewrite !lookup_empty. reflexivity.
Qed.

(** C3: the Filter Set with no field set is not rejected: it compiles to
    the boolean conjunction with an empty clause list, and the search is
    dispatched with that document as body and with the defaults size = 10 and
    from = 0 as arguments of the call, outside the body. *)
Theorem C3_empty_filter_set (client : OpenSearch) (s : State) :
  let match_all := JObj [("query", JObj [("bool", JObj [("must", JArr [])])])] in
  let sent := EvSearch (handle client) "deviations" match_all 10 0 in
  bind_get_deviations ∅ = inr (Build_Bound None None None None None 10 0)
  /\ get_deviations None None None TimeNone TimeNone 10 0 client s
     = match search_outcome client match_all 10 0 with
       | inr deviations =>
           (inr (JObj [("deviations", JArr deviations)]),
            {| query := match_all; log := log s ++ [sent] |})
       | inl e =>
           (inl (HTTPException 500 ("Erro ao consultar OpenSearch: " +:+ str e)),
            {| query := match_all;
               log := log s
                      ++ [sent;
                          EvLogError ("Erro ao consultar OpenSearch: " +:+ str e)] |})
       end
  /\ getitem match_all "size" = inl (KeyError "size")
  /\ getitem match_all "from" = inl (KeyError "from").
Proof.
  intros match_all sent. split; [exact bind_empty |].
  split; [| split; reflexivity].
  change (get_deviations None None None TimeNone TimeNone 10 0 client s)
    with (run_get_deviations
            (DeviationQueryParams.mk None None None None None 10 0) client s).
  rewrite run_get_deviations_eq. subst match_all sent.
  change (JObj [("query", JObj [("bool", JObj [("must", JArr [])])])])
    with (envelope []).
  cbn.
  destruct (search_outcome client (envelope []) 10 0) as [e | deviations]; cbn.
  - rewrite <- !app_assoc. reflexivity.
  - reflexivity.
Qed.

(** The same request through the route, on a cluster that answers the
    ping. *)
Lemma serve_empty_filter_set (d : Deployment) (cl : Cluster) (w : list Event) :
  client_settings d = inr cl -> cluster_ping cl = true ->
  let n := clients_built w in
  let client := {| handle := n; cluster := cl |} in
  let match_all := JObj [("query", JObj [("bool", JObj [("must", JArr [])])])] in
  serve d (GET_deviations ∅) w
  = match search_outcome client match_all 10 0 with
    | inr deviations =>
        (respond deviations_model (inr (JObj [("deviations", JArr deviations)])),
         w ++ [EvNewClient n; EvPing n;
               EvSearch n "deviations" match_all 10 0])
    | inl e =>
        (ErrorDetail 500 ("Erro ao consultar OpenSearch: " +:+ str e),
         w ++ [EvNewClient n; EvPing n;
               EvSearch n "deviations" match_all 10 0;
               EvLogError ("Erro ao consultar OpenSearch: " +:+ str e)])
    end.
Proof.
  intros Hs Hp n client match_all.
  rewrite (serve_get_deviations d cl ∅ _ w Hs Hp bind_empty).
  rewrite run_get_deviations_eq. subst match_all.
  change (JObj [("query", JObj [("bool", JObj [("must", JArr [])])])])
    with (envelope []).
  cbn -[respond]. fold n. fold client.
  destruct (search_outcome client (envelope []) 10 0) as [e | deviations];
    cbn -[respond].
  - rewrite <- !app_assoc. reflexivity.
  - rewrite <- !app_assoc. reflexivity.
Qed.

(** C4: when both bounds are present and start_time > end_time,
    [get_deviations] raises the HTTP 400 before a range clause is appended
    and before the search is dispatched (the log is untouched); when
    start_time <= end_time the check passes, the search is dispatched with
    the range clause and the answer is not a 400. *)
Theorem C4_time_range_check (p : DeviationQueryParams.t) (client : OpenSearch)
    (s : State) (st et : datetime) :
  p.#DeviationQueryParams.start_time = Some st ->
  p.#DeviationQueryParams.end_time = Some et ->
  let run := run_get_deviations p client s in
  (Datetime.gt st et = inr true ->
     run = (inl (HTTPException 400 "start_time deve ser anterior a end_time"),
            {| query := envelope (spec_terms p); log := log s |})
     /\ status_of (respond deviations_model (fst run)) = 400
     /\ List.filter is_range_clause (must_of (query (snd run))) = []
     /\ log (snd run) = log s)
  /\ (Datetime.le st et = inr true ->
        let body :=
          envelope
            (spec_terms p
             ++ [range_clause [("gte", JStr (isoformat st));
                               ("lte", JStr (isoformat et))]]) in
        (exists tail,
            log (snd run)
            = log s ++ EvSearch (handle client) "deviations" body
                         p.#DeviationQueryParams.size
                         p.#DeviationQueryParams.from_ :: tail)
        /\ status_of (respond deviations_model (fst run)) <> 400).
Proof.
  intros Hst Het run. subst run. rewrite run_get_deviations_eq.
  split.
  - intros Hgt. unfold time_check. rewrite Hst, Het, Hgt. cbn.
    repeat split; try reflexivity.
    unfold spec_terms. rewrite !List.filter_app, !spec_term_no_range. reflexivity.
  - intros Hle body. apply le_iff_not_gt in Hle.
    unfold time_check. rewrite Hst, Het, Hle. cbv zeta.
    assert (Hr : spec_range p
                 = [range_clause [("gte", JStr (isoformat st));
                                  ("lte", JStr (isoformat et))]])
      by (unfold spec_range; rewrite Hst, Het; reflexivity).
    rewrite Hr. fold body.
    destruct (search_outcome client body _ _) as [e | deviations];
      cbn -[respond].
    + split; [| discriminate]. eexists. rewrite <- app_assoc. reflexivity.
    + split; [| apply respond_returned_not_400]. exists []. reflexivity.
Qed.

(** The same through the route: the answer is the 400 and the log holds
    the client and its ping only. *)
Lemma serve_reversed_bounds (d : Deployment) (cl : Cluster)
    (q : gmap string string) (a : Bound) (w : list Event) (st et : datetime) :
  client_settings d = inr cl -> cluster_ping cl = true ->
  bind_get_deviations q = inr a ->
  arg_start_time a = Some st -> arg_end_time a = Some et ->
  Datetime.gt st et = inr true ->
  serve d (GET_deviations q) w
  = (ErrorDetail 400 "start_time deve ser anterior a end_time",
     w ++ [EvNewClient (clients_built w); EvPing (clients_built w)]).
Proof.
  intros Hs Hp Hb Hst Het Hgt.
  rewrite (serve_get_deviations d cl q a w Hs Hp Hb).
  rewrite run_get_deviations_eq. unfold time_check, filter_set_of.
  cbn [DeviationQueryParams.start_time DeviationQueryParams.end_time].
  rewrite Hst, Het, Hgt. reflexivity.
Qed.

(** A naive bound against an aware one cannot be ordered: the comparison
    raises inside the [try] and the request is answered 500, nothing having
    been dispatched. *)
Lemma mixed_awareness_is_500 (p : DeviationQueryParams.t) (client : OpenSearch)
    (s : State) (st et : datetime) (off : Z) :
  p.#DeviationQueryParams.start_time = Some st ->
  p.#DeviationQueryParams.end_time = Some et ->
  utcoffset st = Some off -> utcoffset et = None ->
  run_get_deviations p client s
  = (inl (HTTPException 500
            "Erro ao consultar OpenSearch: can't compare offset-naive and offset-aware datetimes"),
     {| query := envelope (spec_terms p);
        log := log s
               ++ [EvLogError
                     "Erro ao consultar OpenSearch: can't compare offset-naive and offset-aware datetimes"] |}).
Proof.
  intros Hst Het Ha Hn. rewrite run_get_deviations_eq.
  unfold time_check, Datetime.gt, Datetime._cmp. rewrite Hst, Het, Ha, Hn.
  reflexivity.
Qed.

(** ** Binding of the query parameters *)

Lemma bind_get_deviations_eq (q : gmap string string) :
  bind_get_deviations q
  = match param_datetime q "start_time", param_datetime q "end_time",
          param_int q "size" 10 (Some 1) (Some 100),
          param_int q "from" 0 None None with
    | inr st, inr et, inr sz, inr fr =>
        inr (Build_Bound (q !! "camera_name") (q !! "event_type")
               (q !! "camera_type") st et sz fr)
    | st, et, sz, fr => inl (failed st ++ failed et ++ failed sz ++ failed fr)
    end.
Proof.
  unfold bind_get_deviations, param_str.
  destruct (param_datetime q "start_time"), (param_datetime q "end_time"),
    (param_int q "size" 10 (Some 1) (Some 100)),
    (param_int q "from" 0 None None); reflexivity.
Qed.

Lemma bind_reports (q : gmap string string) (loc : location) :
  In loc (failed (param_datetime q "start_time")
          ++ failed (param_datetime q "end_time")
          ++ failed (param_int q "size" 10 (Some 1) (Some 100))
          ++ failed (param_int q "from" 0 None None)) ->
  exists errors, bind_get_deviations q = inl errors /\ In loc errors.
Proof.
  rewrite bind_get_deviations_eq.
  destruct (param_datetime q "start_time"), (param_datetime q "end_time"),
    (param_int q "size" 10 (Some 1) (Some 100)),
    (param_int q "from" 0 None None); cbn [failed app];
    intros Hin; try (eexists; split; [reflexivity | exact Hin]).
  destruct Hin.
Qed.

Lemma size_in_range_accepted (q : gmap string string) (raw : string) (n : Z) :
  q !! "size" = Some raw -> query_int raw = Some n -> 1 <= n <= 100 ->
  param_int q "size" 10 (Some 1) (Some 100) = inr n.
Proof.
  intros Hq Hn [Hlo Hhi]. unfold param_int, within. rewrite Hq, Hn.
  destruct (Z.leb_spec 1 n), (Z.leb_spec n 100); try lia. reflexivity.
Qed.

Lemma size_rejected (q : gmap string string) (raw : string) :
  q !! "size" = Some raw ->
  (forall n, query_int raw = Some n -> n < 1 \/ 100 < n) ->
  param_int q "size" 10 (Some 1) (Some 100) = inl ["query"; "size"].
Proof.
  intros Hq Hout. unfold param_int, within. rewrite Hq.
  destruct (query_int raw) as [n |]; [| reflexivity].
  destruct (Hout n eq_refl);
    destruct (Z.leb_spec 1 n), (Z.leb_spec n 100); try lia; reflexivity.
Qed.

(** C5, as the code has it: a size outside [1, 100], or one that is not an
    integer, is turned away while the parameters are bound, before the
    handler runs, and the answer is FastAPI's 422, not the 400 the claim and
    the responses table of the route announce. *)
Theorem C5_invalid_size_answers_422 (d : Deployment) (cl : Cluster)
    (q : gmap string string) (raw : string) (w : list Event) :
  client_settings d = inr cl -> cluster_ping cl = true ->
  q !! "size" = Some raw ->
  (forall n, query_int raw = Some n -> n < 1 \/ 100 < n) ->
  exists errors,
    serve d (GET_deviations q) w
    = (UnprocessableEntity errors,
       w ++ [EvNewClient (clients_built w); EvPing (clients_built w)])
    /\ In ["query"; "size"] errors
    /\ status_of (fst (serve d (GET_deviations q) w)) = 422.
Proof.
  intros Hs Hp Hq Hout.
  destruct (bind_reports q ["query"; "size"]) as (errors & Hb & Hin).
  { rewrite (size_rejected q raw Hq Hout). cbn [failed].
    rewrite !in_app_iff. right. right. left. left. reflexivity. }
  exists errors. rewrite (serve_rejected d cl q errors w Hs Hp Hb).
  repeat split; [exact Hin].
Qed.

Lemma datetime_rejected (q : gmap string string) (name raw : string) :
  q !! name = Some raw -> query_datetime raw = None ->
  param_datetime q name = inl ["query"; name].
Proof. intros Hq Hn. unfold param_datetime. rewrite Hq, Hn. reflexivity. Qed.

(** A string handed to the handler itself: the validator of the model
    raises, and the [except Exception] of [get_deviations] turns that into a
    500. *)
Lemma unparsable_string_in_handler (cn ev ct : option string) (raw : string)
    (en : time_arg) (sz fr : Z) (client : OpenSearch) (s : State) :
  fromisoformat raw = None ->
  exists detail,
    fst (get_deviations cn ev ct (TimeStr raw) en sz fr client s)
    = inl (HTTPException 500 detail).
Proof.
  intros Hraw.
  unfold get_deviations, get_deviations_try, try_except, bind, lift.
  unfold DeviationQueryParams.init, DeviationQueryParams.parse_datetime.
  rewrite Hraw.
  destruct en as [| raw' | d']; [eexists; reflexivity | | eexists; reflexivity].
  destruct (fromisoformat raw'); eexists; reflexivity.
Qed.

(** C7, as the code has it: a start_time or end_time that does not parse is
    turned away while the parameters are bound, with the name of the
    parameter, and the answer is FastAPI's 422, not a 400; the validator
    [parse_datetime] never sees the string. *)
Theorem C7_unparsable_date_answers_422 (d : Deployment) (cl : Cluster)
    (q : gmap string string) (name raw : string) (w : list Event) :
  client_settings d = inr cl -> cluster_ping cl = true ->
  name = "start_time" \/ name = "end_time" ->
  q !! name = Some raw -> query_datetime raw = None ->
  exists errors,
    serve d (GET_deviations q) w
    = (UnprocessableEntity errors,
       w ++ [EvNewClient (clients_built w); EvPing (clients_built w)])
    /\ In ["query"; name] errors
    /\ status_of (fst (serve d (GET_deviations q) w)) = 422.
Proof.
  intros Hs Hp Hname Hq Hraw.
  destruct (bind_reports q ["query"; name]) as (errors & Hb & Hin).
  { destruct Hname as [-> | ->];
      rewrite (datetime_rejected q _ raw Hq Hraw); cbn [failed];
      rewrite !in_app_iff; [left | right; left]; left; reflexivity. }
  exists errors. rewrite (serve_rejected d cl q errors w Hs Hp Hb).
  repeat split; [exact Hin].
Qed.

Lemma param_datetime_loc (q : gmap string string) (name : string)
    (loc : location) :
  param_datetime q name = inl loc -> loc = ["query"; name].
Proof.
  unfold param_datetime. destruct (q !! name) as [raw |]; [| discriminate].
  destruct (query_datetime raw); [discriminate |]. intros [= <-]. reflexivity.
Qed.

Lemma param_int_loc (q : gmap string string) (name : string) (default : Z)
    (ge le : option Z) (loc : location) :
  param_int q name default ge le = inl loc -> loc = ["query"; name].
Proof.
  unfold param_int. destruct (q !! name) as [raw |]; [| discriminate].
  destruct (query_int raw) as [n |]; [destruct (within n ge le) |];
    try discriminate; intros [= <-]; reflexivity.
Qed.

(** C6, as the code has it: the parameter from carries no bound, so every
    integer, negative ones included, is accepted by the binding and is never
    reported as an error; when the request reaches the handler with a valid
    Filter Set the value is the from_ of the backend search, and the answer is
    neither a 400 nor a 422. *)
Theorem C6_every_integer_offset_accepted (q : gmap string string)
    (raw : string) (n : Z) :
  q !! "from" = Some raw -> query_int raw = Some n ->
  param_int q "from" 0 None None = inr n
  /\ (forall errors : list location,
        bind_get_deviations q = inl errors -> ~ In ["query"; "from"] errors)
  /\ (forall (d : Deployment) (cl : Cluster) (a : Bound) (w : list Event),
        client_settings d = inr cl -> cluster_ping cl = true ->
        bind_get_deviations q = inr a -> valid (filter_set_of a) ->
        arg_from_ a = n
        /\ (exists body,
              In (EvSearch (clients_built w) "deviations" body (arg_size a) n)
                 (snd (serve d (GET_deviations q) w)))
        /\ status_of (fst (serve d (GET_deviations q) w)) <> 400
        /\ status_of (fst (serve d (GET_deviations q) w)) <> 422).
Proof.
  intros Hq Hn.
  assert (Hfrom : param_int q "from" 0 None None = inr n)
    by (unfold param_int; rewrite Hq, Hn; reflexivity).
  split; [exact Hfrom |]. split.
  - intros errors Hb Hin.
    rewrite bind_get_deviations_eq, Hfrom in Hb.
    destruct (param_datetime q "start_time") as [l1 |] eqn:E1;
      destruct (param_datetime q "end_time") as [l2 |] eqn:E2;
      destruct (param_int q "size" 10 (Some 1) (Some 100)) as [l3 |] eqn:E3;
      try discriminate; injection Hb as <-;
      repeat match goal with
        | H : param_datetime _ _ = inl _ |- _ =>
            apply param_datetime_loc in H; subst
        | H : param_int _ _ _ _ _ = inl _ |- _ =>
            apply param_int_loc in H; subst
        end;
      cbn in Hin; intuition discriminate.
  - intros d cl a w Hs Hp Hb Hv.
    assert (Ha : arg_from_ a = n).
    { rewrite bind_get_deviations_eq, Hfrom in Hb.
      destruct (param_datetime q "start_time"), (param_datetime q "end_time"),
        (param_int q "size" 10 (Some 1) (Some 100)); try discriminate.
      injection Hb as <-. reflexivity. }
    split; [exact Ha |].
    rewrite (serve_get_deviations d cl q a w Hs Hp Hb).
    rewrite run_get_deviations_eq, (valid_passes _ Hv). cbv zeta.
    cbn [DeviationQueryParams.size DeviationQueryParams.from_ filter_set_of handle].
    rewrite Ha.
    destruct (search_outcome _ _ _ _) as [e | deviations];
      cbn [fst snd log];
      (split; [eexists; rewrite !in_app_iff; cbn; eauto 10 |]).
    + split; discriminate.
    + match goal with
      | |- context [respond ?m (inr ?v)] =>
          destruct (respond_returned m v) as [[validated ->] | ->]
      end; split; discriminate.
Qed.

(** ** The other two handlers *)

(** [get_deviation_by_id] in one equation. *)
Lemma get_deviation_by_id_eq (deviation_id : string) (client : OpenSearch)
    (s : State) :
  let sent := EvGet (handle client) "deviations" deviation_id in
  get_deviation_by_id deviation_id client s
  = match cluster_get (cluster client) "deviations" deviation_id with
    | inr response =>
        match getitem response "_source" with
        | inr source =>
            (inr source, {| query := query s; log := log s ++ [sent] |})
        | inl e =>
            (inl (HTTPException 404 ("Desvio não encontrado: " +:+ str e)),
             {| query := query s;
                log := log s ++ [sent; EvLogError ("Desvio não encontrado: " +:+ str e)] |})
        end
    | inl text =>
        (inl (HTTPException 404 ("Desvio não encontrado: " +:+ text)),
         {| query := query s;
            log := log s ++ [sent; EvLogError ("Desvio não encontrado: " +:+ text)] |})
    end.
Proof.
  intros sent. subst sent.
  unfold get_deviation_by_id, get_deviation_by_id_try, try_except, client_get,
    logging_error, bind, emit, lift, raise, of_reply.
  cbn [query log].
  destruct (cluster_get _ _ _) as [text | response]; cbn.
  - rewrite <- app_assoc. reflexivity.
  - destruct (getitem response "_source") as [e | source]; cbn.
    + rewrite <- app_assoc. reflexivity.
    + reflexivity.
Qed.

(** C8: [get_deviation_by_id] checks nothing about the identifier: for
    every string it dispatches the point lookup with that string; when the
    lookup answers a document it returns the [_source] of the reply as it
    is, and every failure, the backend raising or the reply having no
    [_source], is answered 404.  A returned record, a dict, goes through the
    [response_model] of the route unchanged. *)
Theorem C8_get_by_id (deviation_id : string) (client : OpenSearch) (s : State) :
  let sent := EvGet (handle client) "deviations" deviation_id in
  let run := get_deviation_by_id deviation_id client s in
  run
  = match cluster_get (cluster client) "deviations" deviation_id with
    | inr response =>
        match getitem response "_source" with
        | inr source =>
            (inr source, {| query := query s; log := log s ++ [sent] |})
        | inl e =>
            (inl (HTTPException 404 ("Desvio não encontrado: " +:+ str e)),
             {| query := query s;
                log := log s ++ [sent; EvLogError ("Desvio não encontrado: " +:+ str e)] |})
        end
    | inl text =>
        (inl (HTTPException 404 ("Desvio não encontrado: " +:+ text)),
         {| query := query s;
            log := log s ++ [sent; EvLogError ("Desvio não encontrado: " +:+ text)] |})
    end
  /\ (exists tail, log (snd run) = log s ++ sent :: tail)
  /\ (forall exc : Exception,
        fst run = inl exc ->
        status_of (respond deviation_model (fst run)) = 404)
  /\ (forall fields : list (string * json),
        fst run = inr (JObj fields) ->
        respond deviation_model (fst run) = Ok (JObj fields)).
Proof.
  intros sent run. subst run sent.
  rewrite get_deviation_by_id_eq. cbv zeta.
  assert (Hdict : forall fields,
             respond deviation_model (inr (JObj fields)) = Ok (JObj fields)).
  { intros fields. unfold respond, deviation_model.
    rewrite validate_dict. reflexivity. }
  destruct (cluster_get _ _ _) as [text | response]; cbn [fst snd log].
  - repeat split; eauto. discriminate.
  - destruct (getitem response "_source") as [e | source]; cbn [fst snd log].
    + repeat split; eauto. discriminate.
    + repeat split; eauto; [discriminate |].
      intros fields [= ->]. apply Hdict.
Qed.

Lemma contains_suffix (prefix text : string) : contains text (prefix +:+ text).
Proof.
  exists prefix, "". f_equal.
  induction text as [| c text IH]; [reflexivity |].
  change (String c text = String c (text +:+ "")). f_equal. exact IH.
Qed.

(** C10: when the backend raises during the lookup by id, the detail of
    the 404 is the fixed prefix followed by [str(e)], the text of the
    exception raised, so the raw cause reaches the caller. *)
Theorem C10_raw_cause_in_detail (deviation_id text : string)
    (client : OpenSearch) (s : State) :
  cluster_get (cluster client) "deviations" deviation_id = inl text ->
  str (OpenSearchException text) = text
  /\ fst (get_deviation_by_id deviation_id client s)
     = inl (HTTPException 404 ("Desvio não encontrado: " +:+ text))
  /\ respond deviation_model (fst (get_deviation_by_id deviation_id client s))
     = ErrorDetail 404 ("Desvio não encontrado: " +:+ text)
  /\ contains text ("Desvio não encontrado: " +:+ text).
Proof.
  intros Hget.
  rewrite get_deviation_by_id_eq. cbv zeta. rewrite Hget.
  repeat split. apply contains_suffix.
Qed.

(** The list route does the same in its 500. *)
Lemma list_500_exposes_cause (p : DeviationQueryParams.t) (client : OpenSearch)
    (s : State) (text : string) :
  valid p ->
  cluster_search (cluster client) "deviations"
    (envelope (spec_terms p ++ spec_range p))
    p.#DeviationQueryParams.size p.#DeviationQueryParams.from_ = inl text ->
  fst (run_get_deviations p client s)
  = inl (HTTPException 500 ("Erro ao consultar OpenSearch: " +:+ text)).
Proof.
  intros Hv Hsearch. rewrite run_get_deviations_eq, (valid_passes _ Hv).
  cbv zeta. unfold search_outcome. rewrite Hsearch. reflexivity.
Qed.

(** ** Client objects over the life of the process *)

Lemma clients_built_app (l1 l2 : list Event) :
  clients_built (l1 ++ l2) = (clients_built l1 + clients_built l2)%nat.
Proof. unfold clients_built. rewrite List.filter_app, length_app. reflexivity. Qed.

Lemma calls_build_nothing (h : nat) (tail : list Event) :
  forallb (call_on h) tail = true -> clients_built tail = 0%nat.
Proof.
  induction tail as [| ev tail IH]; [reflexivity |].
  cbn [forallb]. intros [Hev Htail]%andb_prop.
  unfold clients_built in *. cbn [List.filter].
  destruct ev; cbn in Hev |- *; try discriminate; auto.
Qed.

Lemma run_get_deviations_log (p : DeviationQueryParams.t) (client : OpenSearch)
    (s : State) :
  exists tail,
    log (snd (run_get_deviations p client s)) = log s ++ tail
    /\ forallb (call_on (handle client)) tail = true.
Proof.
  rewrite run_get_deviations_eq.
  destruct (time_check p) as [[code detail | e] | []]; cbn [snd log].
  - exists []. rewrite app_nil_r. split; reflexivity.
  - eexists. split; reflexivity.
  - cbv zeta. destruct (search_outcome _ _ _ _); cbn [snd log].
    + rewrite <- app_assoc. eexists. split; [reflexivity |].
      cbn. rewrite Nat.eqb_refl. reflexivity.
    + eexists. split; [reflexivity |]. cbn. rewrite Nat.eqb_refl. reflexivity.
Qed.

Lemma get_deviation_by_id_log (deviation_id : string) (client : OpenSearch)
    (s : State) :
  exists tail,
    log (snd (get_deviation_by_id deviation_id client s)) = log s ++ tail
    /\ forallb (call_on (handle client)) tail = true.
Proof.
  rewrite get_deviation_by_id_eq. cbv zeta.
  destruct (cluster_get _ _ _) as [text | response];
    [| destruct (getitem response "_source")];
    cbn [snd log]; (eexists; split; [reflexivity |]);
    cbn; rewrite Nat.eqb_refl; reflexivity.
Qed.

Lemma health_check_log (client : OpenSearch) (s : State) :
  exists tail,
    log (snd (health_check client s)) = log s ++ tail
    /\ forallb (call_on (handle client)) tail = true.
Proof.
  unfold health_check, try_except, client_cluster_health, logging_error, bind,
    emit, lift, raise, ret, of_reply.
  cbn [query log].
  destruct (cluster_health _) as [text | health]; cbn.
  - rewrite <- app_assoc. eexists. split; [reflexivity |].
    cbn. rewrite Nat.eqb_refl. reflexivity.
  - destruct (getitem health "status"); cbn.
    + rewrite <- app_assoc. eexists. split; [reflexivity |].
      cbn. rewrite Nat.eqb_refl. reflexivity.
    + eexists. split; [reflexivity |]. cbn. rewrite Nat.eqb_refl. reflexivity.
Qed.

(** What one request adds to the log: a new client, its ping, then calls
    on that client only. *)
Lemma serve_log (d : Deployment) (cl : Cluster) (r : Request) (w : list Event) :
  client_settings d = inr cl ->
  exists tail,
    snd (serve d r w)
    = w ++ EvNewClient (clients_built w) :: EvPing (clients_built w) :: tail
    /\ forallb (call_on (clients_built w)) tail = true.
Proof.
  intros Hs. unfold serve.
  destruct (cluster_ping cl) eqn:Hp.
  - rewrite (client_acquired d cl _ Hs Hp). cbn [log query].
    set (n := clients_built w).
    set (client := {| handle := n; cluster := cl |}).
    set (s := {| query := JNull; log := w ++ [EvNewClient n; EvPing n] |}).
    destruct r as [q | deviation_id |].
    + destruct (bind_get_deviations q) as [errors | a].
      * exists []. split; reflexivity.
      * destruct (run_get_deviations_log (filter_set_of a) client s)
          as (tail & Hlog & Hcalls).
        unfold run_get_deviations, filter_set_of in Hlog.
        cbn [DeviationQueryParams.camera_name DeviationQueryParams.event_type
             DeviationQueryParams.camera_type DeviationQueryParams.start_time
             DeviationQueryParams.end_time DeviationQueryParams.size
             DeviationQueryParams.from_] in Hlog.
        destruct (get_deviations _ _ _ _ _ _ _ _ _) as [out s'].
        exists tail. cbn [snd] in *. rewrite Hlog. subst s. cbn [log].
        rewrite <- app_assoc. split; [reflexivity | exact Hcalls].
    + destruct (get_deviation_by_id_log deviation_id client s)
        as (tail & Hlog & Hcalls).
      destruct (get_deviation_by_id _ _ _) as [out s'].
      exists tail. cbn [snd] in *. rewrite Hlog. subst s. cbn [log].
      rewrite <- app_assoc. split; [reflexivity | exact Hcalls].
    + destruct (health_check_log client s) as (tail & Hlog & Hcalls).
      destruct (health_check _ _) as [out s'].
      exists tail. cbn [snd] in *. rewrite Hlog. subst s. cbn [log].
      rewrite <- app_assoc. split; [reflexivity | exact Hcalls].
  - rewrite (client_unreachable d cl _ Hs Hp). exists []. split; reflexivity.
Qed.

Lemma serve_builds_one (d : Deployment) (cl : Cluster) (r : Request)
    (w : list Event) :
  client_settings d = inr cl ->
  clients_built (snd (serve d r w)) = S (clients_built w).
Proof.
  intros Hs. destruct (serve_log d cl r w Hs) as (tail & -> & Hcalls).
  change (EvNewClient (clients_built w) :: EvPing (clients_built w) :: tail)
    with ([EvNewClient (clients_built w); EvPing (clients_built w)] ++ tail).
  rewrite !clients_built_app, (calls_build_nothing _ tail Hcalls).
  cbn. lia.
Qed.

Lemma serve_all_builds (d : Deployment) (cl : Cluster) (rs : list Request)
    (w : list Event) :
  client_settings d = inr cl ->
  clients_built (snd (serve_all d rs w)) = (clients_built w + length rs)%nat.
Proof.
  intros Hs. revert w.
  induction rs as [| r rs IH]; intros w; cbn [serve_all length snd].
  - lia.
  - pose proof (serve_builds_one d cl r w Hs) as H1.
    destruct (serve d r w) as [resp w']. cbn [snd] in H1.
    specialize (IH w').
    destruct (serve_all d rs w') as [resps w'']. cbn [snd] in *. lia.
Qed.

(** C9, as the code has it: running the module builds no client object;
    every request runs [get_opensearch_client] through [Depends], which
    builds a new object and pings it, and the handler of that request calls
    on that object only.  A process that has served [k] requests has built
    [k] client objects. *)
Theorem C9_one_client_per_request (d : Deployment) (cl : Cluster)
    (w0 : list Event) (rs : list Request) :
  client_settings d = inr cl ->
  module_init d = inr w0 ->
  clients_built w0 = 0%nat
  /\ clients_built (snd (serve_all d rs w0)) = length rs
  /\ (forall (r : Request) (w : list Event),
        exists tail,
          snd (serve d r w)
          = w ++ EvNewClient (clients_built w) :: EvPing (clients_built w) :: tail
          /\ forallb (call_on (clients_built w)) tail = true).
Proof.
  intros Hs Hinit.
  assert (Hw0 : w0 = []).
  { unfold module_init in Hinit.
    destruct (negb (config_ini_exists d)); [discriminate |].
    destruct (negb (dotenv_exists d)); [discriminate |].
    destruct (load_dotenv d); [discriminate |].
    destruct (config_read d); [discriminate |].
    injection Hinit as <-. reflexivity. }
  subst w0. split; [reflexivity |]. split.
  - rewrite (serve_all_builds d cl rs [] Hs). reflexivity.
  - intros r w. exact (serve_log d cl r w Hs).
Qed.

End RouteFacts.

(** ** The properties on the reference deployment *)

Lemma C4_time_range_check_witness :
  (Datetime.gt (Datetime.mk 2023 10 1 23 59 59 0 None)
     (Datetime.mk 2023 10 1 0 0 0 0 None) = inr true
   /\ run_get_deviations (rt := Reference.runtime) Reference.reversed
        Reference.client0 Reference.fresh
      = (inl (HTTPException 400 "start_time deve ser anterior a end_time"),
         {| query := envelope [term_clause "camera_name" "Camera_01"];
            log := [] |}))
  /\ (Datetime.le (Datetime.mk 2023 10 1 0 0 0 0 None)
        (Datetime.mk 2023 10 1 23 59 59 0 None) = inr true
      /\ status_of (respond (rt := Reference.runtime) deviations_model
                      (fst (run_get_deviations (rt := Reference.runtime)
                              Reference.filters Reference.client0
                              Reference.fresh))) <> 400).
Proof.
  split; (split; [reflexivity |]).
  - exact (proj1 (proj1 (C4_time_range_check (rt := Reference.runtime)
                           Reference.reversed Reference.client0 Reference.fresh
                           _ _ eq_refl eq_refl) eq_refl)).
  - exact (proj2 (proj2 (C4_time_range_check (rt := Reference.runtime)
                           Reference.filters Reference.client0 Reference.fresh
                           _ _ eq_refl eq_refl) eq_refl)).
Defined.

Lemma C5_invalid_size_answers_422_witness :
  ({[ "size" := "0" ]} : gmap string string) !! "size" = Some "0"
  /\ Reference.decimal "0" = Some 0
  /\ exists errors,
       serve (rt := Reference.runtime) Reference.deployment
         (GET_deviations {[ "size" := "0" ]}) []
       = (UnprocessableEntity errors, [EvNewClient 0; EvPing 0])
       /\ In ["query"; "size"] errors
       /\ status_of (fst (serve (rt := Reference.runtime) Reference.deployment
                            (GET_deviations {[ "size" := "0" ]}) [])) = 422.
Proof.
  split; [reflexivity |]. split; [reflexivity |].
  apply (C5_invalid_size_answers_422 (rt := Reference.runtime)
           Reference.deployment Reference.green_cluster {[ "size" := "0" ]} "0" []);
    [reflexivity | reflexivity | reflexivity |].
  intros n Hn. cbv in Hn. injection Hn as <-. left. reflexivity.
Defined.

Lemma C6_every_integer_offset_accepted_witness :
  ({[ "from" := "-1" ]} : gmap string string) !! "from" = Some "-1"
  /\ Reference.decimal "-1" = Some (-1)
  /\ param_int (rt := Reference.runtime) {[ "from" := "-1" ]} "from" 0 None None
     = inr (-1)
  /\ status_of (fst (serve (rt := Reference.runtime) Reference.deployment
                       (GET_deviations {[ "from" := "-1" ]}) [])) <> 400.
Proof.
  split; [reflexivity |]. split; [reflexivity |].
  pose proof (C6_every_integer_offset_accepted (rt := Reference.runtime)
                {[ "from" := "-1" ]} "-1" (-1) eq_refl eq_refl)
    as (Hfrom & _ & Hserve).
  split; [exact Hfrom |].
  exact (proj1 (proj2 (proj2 (Hserve Reference.deployment Reference.green_cluster
                                (Build_Bound None None None None None 10 (-1)) []
                                eq_refl eq_refl eq_refl I)))).
Defined.

(** C6 as it was claimed fails: a negative offset is not rejected with a
    400; the binding accepts it, the search is dispatched with from_ = -1,
    and what the cluster makes of it comes back as a 500. *)
Lemma C6_negative_offset_not_rejected :
  Reference.decimal "-1" = Some (-1)
  /\ bind_get_deviations (rt := Reference.runtime) {[ "from" := "-1" ]}
     = inr (Build_Bound None None None None None 10 (-1))
  /\ serve (rt := Reference.runtime) Reference.deployment
       (GET_deviations {[ "from" := "-1" ]}) []
     = (ErrorDetail 500
          "Erro ao consultar OpenSearch: RequestError(400, 'illegal_argument_exception', '[from] parameter cannot be negative')",
        [EvNewClient 0; EvPing 0;
         EvSearch 0 "deviations" (envelope []) 10 (-1);
         EvLogError
           "Erro ao consultar OpenSearch: RequestError(400, 'illegal_argument_exception', '[from] parameter cannot be negative')"])
  /\ status_of (fst (serve (rt := Reference.runtime) Reference.deployment
                       (GET_deviations {[ "from" := "-1" ]}) [])) <> 400.
Proof. repeat (split; [reflexivity |]). discriminate. Qed.

Lemma C7_unparsable_date_answers_422_witness :
  ({[ "start_time" := "not-a-date" ]} : gmap string string) !! "start_time"
  = Some "not-a-date"
  /\ Reference.iso_seconds "not-a-date" = None
  /\ exists errors,
       serve (rt := Reference.runtime) Reference.deployment
         (GET_deviations {[ "start_time" := "not-a-date" ]}) []
       = (UnprocessableEntity errors, [EvNewClient 0; EvPing 0])
       /\ In ["query"; "start_time"] errors
       /\ status_of (fst (serve (rt := Reference.runtime) Reference.deployment
                            (GET_deviations {[ "start_time" := "not-a-date" ]})
                            [])) = 422.
Proof.
  split; [reflexivity |]. split; [reflexivity |].
  apply (C7_unparsable_date_answers_422 (rt := Reference.runtime)
           Reference.deployment Reference.green_cluster
           {[ "start_time" := "not-a-date" ]} "start_time" "not-a-date" []);
    [reflexivity | reflexivity | left; reflexivity | reflexivity | reflexivity].
Defined.

Lemma C9_one_client_per_request_witness :
  client_settings Reference.deployment = inr Reference.green_cluster
  /\ module_init Reference.deployment = inr []
  /\ clients_built
       (snd (serve_all (rt := Reference.runtime) Reference.deployment
               [GET_health; GET_deviation_by_id "1"; GET_deviations ∅] []))
     = 3%nat.
Proof.
  split; [reflexivity |]. split; [reflexivity |].
  exact (proj1 (proj2 (C9_one_client_per_request (rt := Reference.runtime)
                         Reference.deployment Reference.green_cluster []
                         [GET_health; GET_deviation_by_id "1"; GET_deviations ∅]
                         eq_refl eq_refl))).
Defined.

(** C9 as it was claimed fails: no client object exists after start-up, and
    two requests build two, each used by its own request. *)
Lemma C9_two_requests_two_clients :
  module_init Reference.deployment = inr []
  /\ snd (serve_all (rt := Reference.runtime) Reference.deployment
            [GET_health; GET_health] [])
     = [EvNewClient 0; EvPing 0; EvClusterHealth 0;
        EvNewClient 1; EvPing 1; EvClusterHealth 1]
  /\ clients_built
       (snd (serve_all (rt := Reference.runtime) Reference.deployment
               [GET_health; GET_health] [])) <> 1%nat.
Proof. split; [reflexivity |]. split; [reflexivity |]. discriminate. Qed.

Lemma C10_raw_cause_in_detail_witness :
  cluster_get Reference.green_cluster "deviations" "unknown-id"
  = inl "NotFoundError(404, 'not_found')"
  /\ respond (rt := Reference.runtime) deviation_model
       (fst (get_deviation_by_id (rt := Reference.runtime) "unknown-id"
               Reference.client0 Reference.fresh))
     = ErrorDetail 404 "Desvio não encontrado: NotFoundError(404, 'not_found')".
Proof.
  split; [reflexivity |].
  exact (proj1 (proj2 (proj2 (C10_raw_cause_in_detail (rt := Reference.runtime)
                                "unknown-id" "NotFoundError(404, 'not_found')"
                                Reference.client0 Reference.fresh eq_refl)))).
Defined.

(** * Further properties of the code *)

Example main_with_tunnel :
  main Samples.ngrok_ok []
  = (inr tt,
     [SetAuthToken "2abc";
      Connect 8000 "http" "elephant-moved-informally.ngrok-free.app";
      LogInfo "Ngrok tunnel ativo! URL pública: NgrokTunnel: https://elephant-moved-informally.ngrok-free.app";
      LogInfo "API disponível externamente em: NgrokTunnel: https://elephant-moved-informally.ngrok-free.app";
      LogInfo "Documentação disponível em: NgrokTunnel: https://elephant-moved-informally.ngrok-free.app/docs";
      LogInfo "Servidor iniciando em: http://0.0.0.0:8000";
      LogInfo "Documentação disponível em: http://0.0.0.0:8000/docs";
      UvicornRun "0.0.0.0" 8000]).
Proof. vm_compute. reflexivity. Qed.

Example main_without_tunnel :
  main Samples.ngrok_refused []
  = (inr tt,
     [Connect 8000 "http" "elephant-moved-informally.ngrok-free.app";
      LogError "Erro ao iniciar o Ngrok: The ngrok process errored on start";
      LogWarning "Falha ao iniciar o Ngrok. A API só estará disponível localmente.";
      LogInfo "Servidor iniciando em: http://0.0.0.0:8000";
      LogInfo "Documentação disponível em: http://0.0.0.0:8000/docs";
      UvicornRun "0.0.0.0" 8000]).
Proof. vm_compute. reflexivity. Qed.

Example text_source_by_id :
  serve (rt := Reference.runtime) Samples.text_deployment
    (GET_deviation_by_id "7") []
  = (InternalServerError,
     [EvNewClient 0; EvPing 0; EvGet 0 "deviations" "7"]).
Proof. vm_compute. reflexivity. Qed.

Example text_source_in_list :
  fst (serve (rt := Reference.runtime) Samples.text_deployment
         (GET_deviations ∅) [])
  = InternalServerError.
Proof. vm_compute. reflexivity. Qed.

Example malformed_config_ini :
  script Samples.malformed_deployment Samples.ngrok_ok []
  = (inl (ConfigParserError
            "File contains no section headers."),
     []).
Proof. vm_compute. reflexivity. Qed.

Section MoreRuns.

Context {rt : Runtime}.

(** ** [health_check] *)

Lemma health_check_eq (client : OpenSearch) (s : State) :
  let sent := EvClusterHealth (handle client) in
  health_check client s
  = match cluster_health (cluster client) with
    | inr health =>
        match getitem health "status" with
        | inr status =>
            (inr (JObj [("status", JStr "healthy");
                        ("opensearch_status", status);
                        ("version", JStr "1.0.0")]),
             {| query := query s; log := log s ++ [sent] |})
        | inl e =>
            (inl (HTTPException 503 ("Serviço indisponível: " +:+ str e)),
             {| query := query s;
                log := log s ++ [sent; EvLogError ("Serviço indisponível: " +:+ str e)] |})
        end
    | inl text =>
        (inl (HTTPException 503 ("Serviço indisponível: " +:+ text)),
         {| query := query s;
            log := log s ++ [sent; EvLogError ("Serviço indisponível: " +:+ text)] |})
    end.
Proof.
  intros sent. subst sent.
  unfold health_check, try_except, client_cluster_health, logging_error, bind,
    emit, lift, raise, ret, of_reply.
  cbn [query log].
  destruct (cluster_health _) as [text | health]; cbn.
  - rewrite <- app_assoc. reflexivity.
  - destruct (getitem health "status") as [e | status]; cbn.
    + rewrite <- app_assoc. reflexivity.
    + reflexivity.
Qed.

(** X1: [health_check] makes one backend call, the cluster health probe.
    What it returns carries the [status] field of the reply unchanged beside
    the fixed status healthy and the version 1.0.0; whatever goes wrong, the
    probe raising or the reply having no [status], is raised as a 503 whose
    detail ends with the text of the exception, and nothing else ever leaves
    the handler. *)
Theorem X1_health_check_outcomes (client : OpenSearch) (s : State) :
  let run := health_check client s in
  (forall body : json,
      fst run = inr body ->
      exists health status,
        cluster_health (cluster client) = inr health
        /\ getitem health "status" = inr status
        /\ body = JObj [("status", JStr "healthy");
                        ("opensearch_status", status);
                        ("version", JStr "1.0.0")])
  /\ (forall exc : Exception,
        fst run = inl exc ->
        exists e : PyError,
          exc = HTTPException 503 ("Serviço indisponível: " +:+ str e)
          /\ (cluster_health (cluster client) = inl (str e)
              \/ exists health,
                   cluster_health (cluster client) = inr health
                   /\ getitem health "status" = inl e))
  /\ (exists tail,
        log (snd run) = log s ++ EvClusterHealth (handle client) :: tail
        /\ forallb is_log_error tail = true).
Proof.
  intros run. subst run. rewrite health_check_eq. cbv zeta.
  destruct (cluster_health (cluster client)) as [text | health].
  - cbn [fst snd log]. split; [discriminate |]. split.
    + intros exc [= <-]. exists (OpenSearchException text). split; [reflexivity |].
      left. reflexivity.
    + eexists. split; reflexivity.
  - destruct (getitem health "status") as [e | status] eqn:Hst; cbn [fst snd log].
    + split; [discriminate |]. split.
      * intros exc [= <-]. exists e. split; [reflexivity |]. right. eauto.
      * eexists. split; reflexivity.
    + split.
      * intros body [= <-]. eauto.
      * split; [discriminate |]. exists []. split; reflexivity.
Qed.

(** ** What [get_deviations] makes of the reply *)

Lemma comprehension_sources (hits srcs : list json) :
  Forall2 (fun hit src => getitem hit "_source" = inr src) hits srcs ->
  comprehension (fun hit => getitem hit "_source") hits = inr srcs.
Proof.
  induction 1 as [| hit src hits srcs Hhit _ IH]; [reflexivity |].
  cbn [comprehension]. rewrite Hhit, IH. reflexivity.
Qed.

Lemma comprehension_stops (good rest : list json) (bad : json) (e : PyError) :
  Forall (fun hit => exists src, getitem hit "_source" = inr src) good ->
  getitem bad "_source" = inl e ->
  comprehension (fun hit => getitem hit "_source") (good ++ bad :: rest) = inl e.
Proof.
  intros Hgood Hbad.
  induction Hgood as [| hit good [src Hhit] _ IH]; cbn [app comprehension].
  - rewrite Hbad. reflexivity.
  - rewrite Hhit, IH. reflexivity.
Qed.

(** X2: when the search answers a reply whose [hits.hits] is a list of
    hits that each carry a [_source], [get_deviations] returns the dict
    deviations holding those sources, one per hit, in the order of the
    reply. *)
Theorem X2_deviations_in_backend_order (p : DeviationQueryParams.t)
    (client : OpenSearch) (s : State) (response outer : json)
    (hits srcs : list json) :
  valid p ->
  cluster_search (cluster client) "deviations"
    (envelope (spec_terms p ++ spec_range p))
    p.#DeviationQueryParams.size p.#DeviationQueryParams.from_ = inr response ->
  getitem response "hits" = inr outer ->
  getitem outer "hits" = inr (JArr hits) ->
  Forall2 (fun hit src => getitem hit "_source" = inr src) hits srcs ->
  fst (run_get_deviations p client s) = inr (JObj [("deviations", JArr srcs)])
  /\ length srcs = length hits.
Proof.
  intros Hv Hsearch Houter Hinner Hsrcs.
  rewrite run_get_deviations_eq, (valid_passes _ Hv). cbv zeta.
  unfold search_outcome, sources. rewrite Hsearch. cbn [of_reply].
  rewrite Houter, Hinner. cbn [iter].
  rewrite (comprehension_sources hits srcs Hsrcs).
  split; [reflexivity |]. symmetry. exact (Forall2_length _ _ _ Hsrcs).
Qed.

(** X3: there are no partial results: when one hit of the reply cannot be
    subscripted with [_source], the hits before it being in order, the whole
    request is answered 500 with the text of that exception, and no list of
    deviations is returned. *)
Theorem X3_one_bad_hit_fails_the_request (p : DeviationQueryParams.t)
    (client : OpenSearch) (s : State) (response outer bad : json)
    (good rest : list json) (e : PyError) :
  valid p ->
  cluster_search (cluster client) "deviations"
    (envelope (spec_terms p ++ spec_range p))
    p.#DeviationQueryParams.size p.#DeviationQueryParams.from_ = inr response ->
  getitem response "hits" = inr outer ->
  getitem outer "hits" = inr (JArr (good ++ bad :: rest)) ->
  Forall (fun hit => exists src, getitem hit "_source" = inr src) good ->
  getitem bad "_source" = inl e ->
  fst (run_get_deviations p client s)
  = inl (HTTPException 500 ("Erro ao consultar OpenSearch: " +:+ str e)).
Proof.
  intros Hv Hsearch Houter Hinner Hgood Hbad.
  rewrite run_get_deviations_eq, (valid_passes _ Hv). cbv zeta.
  unfold search_outcome, sources. rewrite Hsearch. cbn [of_reply].
  rewrite Houter, Hinner. cbn [iter].
  rewrite (comprehension_stops good rest bad e Hgood Hbad). reflexivity.
Qed.

End MoreRuns.

Section MoreRoutes.

Context {rt : Runtime}.

(** ** The three routes as a whole *)

Lemma time_check_cases (p : DeviationQueryParams.t) :
  time_check p = inr tt
  \/ time_check p
     = inl (HTTPException 400 "start_time deve ser anterior a end_time")
  \/ exists e : PyError, time_check p = inl (Raised e).
Proof.
  unfold time_check.
  destruct (p.#DeviationQueryParams.start_time) as [st |],
           (p.#DeviationQueryParams.end_time) as [et |]; auto.
  destruct (Datetime.gt st et) as [e | []]; eauto.
Qed.

Lemma client_unreadable (d : Deployment) (e : PyError) (s : State) :
  client_settings d = inl e -> get_opensearch_client d s = (inl e, s).
Proof.
  intros Hs. unfold get_opensearch_client, OpenSearch_new, bind, lift.
  rewrite Hs. reflexivity.
Qed.

(** A request once the client is there. *)
Lemma serve_acquired (d : Deployment) (cl : Cluster) (r : Request)
    (w : list Event) :
  client_settings d = inr cl -> cluster_ping cl = true ->
  let n := clients_built w in
  let client := {| handle := n; cluster := cl |} in
  let s := {| query := JNull; log := w ++ [EvNewClient n; EvPing n] |} in
  serve d r w
  = match r with
    | GET_deviations q =>
        match bind_get_deviations q with
        | inl errors => (UnprocessableEntity errors, log s)
        | inr a =>
            (respond deviations_model
               (fst (run_get_deviations (filter_set_of a) client s)),
             log (snd (run_get_deviations (filter_set_of a) client s)))
        end
    | GET_deviation_by_id deviation_id =>
        (respond deviation_model
           (fst (get_deviation_by_id deviation_id client s)),
         log (snd (get_deviation_by_id deviation_id client s)))
    | GET_health =>
        (respond None (fst (health_check client s)),
         log (snd (health_check client s)))
    end.
Proof.
  intros Hs Hp n client s.
  destruct r as [q | deviation_id |].
  - destruct (bind_get_deviations q) as [errors | a] eqn:Hb.
    + exact (serve_rejected d cl q errors w Hs Hp Hb).
    + exact (serve_get_deviations d cl q a w Hs Hp Hb).
  - unfold serve. rewrite (client_acquired d cl _ Hs Hp). cbn [log query].
    fold n. fold client. fold s.
    destruct (get_deviation_by_id deviation_id client s). reflexivity.
  - unfold serve. rewrite (client_acquired d cl _ Hs Hp). cbn [log query].
    fold n. fold client. fold s.
    destruct (health_check client s). reflexivity.
Qed.

(** The three ways a request can go before its handler. *)
Lemma serve_cases (d : Deployment) (r : Request) (w : list Event) :
  (acquirable d = false
   /\ fst (serve d r w) = InternalServerError
   /\ (snd (serve d r w) = w
       \/ snd (serve d r w)
          = w ++ [EvNewClient (clients_built w); EvPing (clients_built w)]))
  \/ (acquirable d = true
      /\ exists cl, client_settings d = inr cl /\ cluster_ping cl = true).
Proof.
  unfold acquirable.
  destruct (client_settings d) as [e | cl] eqn:Hs.
  - left. unfold serve. rewrite (client_unreadable d e _ Hs). auto.
  - destruct (cluster_ping cl) eqn:Hp.
    + right. eauto.
    + left. rewrite (serve_unreachable d cl r w Hs Hp). auto.
Qed.

(** X4: the status codes of each route.  The list route answers 200, 400,
    422 or 500, the lookup by id 200, 404 or 500, the health route 200, 503
    or 500, and no other code, whatever the request and the backend. *)
Theorem X4_status_codes (d : Deployment) (r : Request) (w : list Event) :
  let status := status_of (fst (serve d r w)) in
  match r with
  | GET_deviations _ =>
      status = 200 \/ status = 400 \/ status = 422 \/ status = 500
  | GET_deviation_by_id _ => status = 200 \/ status = 404 \/ status = 500
  | GET_health => status = 200 \/ status = 503 \/ status = 500
  end.
Proof.
  intros status. subst status.
  destruct (serve_cases d r w) as [(_ & -> & _) | (_ & cl & Hs & Hp)].
  - destruct r; cbn; auto.
  - rewrite (serve_acquired d cl r w Hs Hp). cbv zeta.
    destruct r as [q | deviation_id |].
    + destruct (bind_get_deviations q) as [errors | a]; [cbn; auto |].
      rewrite run_get_deviations_eq. cbn [fst].
      destruct (time_check_cases (filter_set_of a)) as [-> | [-> | [e ->]]];
        [| cbn; auto | cbn; auto].
      cbv zeta. destruct (search_outcome _ _ _ _) as [e | deviations];
        cbn [fst]; [cbn; auto |].
      destruct (respond_returned deviations_model
                  (JObj [("deviations", JArr deviations)]))
        as [[validated ->] | ->]; cbn; auto.
    + rewrite get_deviation_by_id_eq. cbv zeta.
      destruct (cluster_get _ _ _) as [text | response]; [cbn; auto |].
      destruct (getitem response "_source") as [e | source]; cbn [fst];
        [cbn; auto |].
      destruct (respond_returned deviation_model source)
        as [[validated ->] | ->]; cbn; auto.
    + rewrite health_check_eq. cbv zeta.
      destruct (cluster_health _) as [text | health]; [cbn; auto |].
      destruct (getitem health "status"); cbn; auto.
Qed.

(** X5: every error a handler answers with is written to the log first,
    except the 400: when a request is answered with a status and a detail,
    either the status is 400 and the request has left no logging line and no
    backend call beyond the ping, or the last event of the request is the
    logging.error line carrying that detail. *)
Theorem X5_errors_are_logged (d : Deployment) (r : Request) (w : list Event)
    (code : Z) (detail : string) :
  fst (serve d r w) = ErrorDetail code detail ->
  (code = 400
   /\ snd (serve d r w)
      = w ++ [EvNewClient (clients_built w); EvPing (clients_built w)])
  \/ (code <> 400
      /\ exists events, snd (serve d r w) = events ++ [EvLogError detail]).
Proof.
  destruct (serve_cases d r w) as [(_ & -> & _) | (_ & cl & Hs & Hp)];
    [discriminate |].
  rewrite (serve_acquired d cl r w Hs Hp). cbv zeta.
  destruct r as [q | deviation_id |].
  - destruct (bind_get_deviations q) as [errors | a]; [discriminate |].
    rewrite run_get_deviations_eq.
    destruct (time_check_cases (filter_set_of a)) as [-> | [-> | [e ->]]].
    + cbv zeta. destruct (search_outcome _ _ _ _) as [e | deviations];
        cbn [fst snd log].
      * cbn [respond]. intros [= <- <-]. right. split; [discriminate |]. eauto.
      * destruct (respond_returned deviations_model
                    (JObj [("deviations", JArr deviations)]))
          as [[validated ->] | ->]; discriminate.
    + cbn [fst snd log respond]. intros [= <- <-]. left. auto.
    + cbn [fst snd log respond]. intros [= <- <-]. right.
      split; [discriminate |]. eauto.
  - rewrite get_deviation_by_id_eq. cbv zeta.
    destruct (cluster_get _ _ _) as [text | response];
      [| destruct (getitem response "_source") as [e | source]];
      cbn [fst snd log];
      try (destruct (respond_returned deviation_model source)
             as [[validated ->] | ->]; discriminate);
      cbn [respond]; intros [= <- <-]; right; (split; [discriminate |]);
      exists (w ++ [EvNewClient (clients_built w); EvPing (clients_built w);
                    EvGet (clients_built w) "deviations" deviation_id]);
      cbn [handle]; rewrite <- !app_assoc; reflexivity.
  - rewrite health_check_eq. cbv zeta.
    destruct (cluster_health _) as [text | health];
      [| destruct (getitem health "status")];
      cbn [fst snd log respond]; try discriminate;
      intros [= <- <-]; right; (split; [discriminate |]);
      exists (w ++ [EvNewClient (clients_built w); EvPing (clients_built w);
                    EvClusterHealth (clients_built w)]);
      cbn [handle]; rewrite <- !app_assoc; reflexivity.
Qed.

(** What [get_deviations] returns or raises. *)
Lemma run_get_deviations_outcome (p : DeviationQueryParams.t)
    (client : OpenSearch) (s : State) :
  (exists code detail,
      fst (run_get_deviations p client s) = inl (HTTPException code detail))
  \/ (exists deviations,
        fst (run_get_deviations p client s)
        = inr (JObj [("deviations", JArr deviations)])).
Proof.
  rewrite run_get_deviations_eq.
  destruct (time_check_cases p) as [-> | [-> | [e ->]]]; cbn [fst]; eauto.
  cbv zeta. destruct (search_outcome _ _ _ _); cbn [fst]; eauto.
Qed.

(** The pass over the dict [get_deviations] returns goes over the
    deviations one by one. *)
Lemma validate_deviations (deviations : list json) :
  validate (TDict (TList (TDict TAny))) (JObj [("deviations", JArr deviations)])
  = match traverse (validate (TDict TAny)) deviations with
    | Some validated => Some (JObj [("deviations", JArr validated)])
    | None => None
    end.
Proof.
  change (validate (TDict (TList (TDict TAny)))
            (JObj [("deviations", JArr deviations)]))
    with (JObj <$> match pair "deviations"
                         <$> (JArr <$> traverse (validate (TDict TAny)) deviations)
                   with
                   | Some y => Some [y]
                   | None => None
                   end).
  destruct (traverse (validate (TDict TAny)) deviations); reflexivity.
Qed.

Lemma traverse_refused {A B} (f : A -> option B) (l : list A) :
  traverse f l = None -> exists x, In x l /\ f x = None.
Proof.
  induction l as [| x l IH]; [discriminate |].
  cbn [traverse]. destruct (f x) as [y |] eqn:Hx.
  - destruct (traverse f l); [discriminate |].
    intros _. destruct (IH eq_refl) as (x' & Hin & Hx'). exists x'. cbn. auto.
  - intros _. exists x. cbn. auto.
Qed.

(** X6: the bare 500 of an unhandled exception has two causes and no
    other.  When [get_opensearch_client] cannot hand over a client, the
    settings being unreadable or the ping failing, every request gets it and
    no handler runs: the log gains nothing, or the new client and its ping
    only.  When the client is there, it is the [response_model] pass refusing
    what the handler returned, which takes a [_source] that is not a dict; the
    health route, which declares no model, never answers it. *)
Theorem X6_bare_500_causes (d : Deployment) (r : Request) (w : list Event) :
  (acquirable d = false ->
   fst (serve d r w) = InternalServerError
   /\ (snd (serve d r w) = w
       \/ snd (serve d r w)
          = w ++ [EvNewClient (clients_built w); EvPing (clients_built w)]))
  /\ (acquirable d = true ->
      fst (serve d r w) = InternalServerError ->
      exists cl : Cluster,
        client_settings d = inr cl
        /\ match r with
           | GET_deviations q =>
               exists (a : Bound) (deviations : list json) (hit : json),
                 bind_get_deviations q = inr a
                 /\ fst (run_get_deviations (filter_set_of a)
                           {| handle := clients_built w; cluster := cl |}
                           {| query := JNull;
                              log := w ++ [EvNewClient (clients_built w);
                                           EvPing (clients_built w)] |})
                    = inr (JObj [("deviations", JArr deviations)])
                 /\ In hit deviations
                 /\ forall fields, hit <> JObj fields
           | GET_deviation_by_id deviation_id =>
               exists response source : json,
                 cluster_get cl "deviations" deviation_id = inr response
                 /\ getitem response "_source" = inr source
                 /\ forall fields, source <> JObj fields
           | GET_health => False
           end).
Proof.
  destruct (serve_cases d r w) as [(Ha & Hr & Hl) | (Ha & cl & Hs & Hp)].
  - split; [auto | rewrite Ha; discriminate].
  - split; [rewrite Ha; discriminate |]. intros _.
    rewrite (serve_acquired d cl r w Hs Hp). cbv zeta. cbn [fst].
    intros H500. exists cl. split; [exact Hs |].
    destruct r as [q | deviation_id |].
    + destruct (bind_get_deviations q) as [errors | a]; [discriminate |].
      destruct (run_get_deviations_outcome (filter_set_of a)
                  {| handle := clients_built w; cluster := cl |}
                  {| query := JNull;
                     log := w ++ [EvNewClient (clients_built w);
                                  EvPing (clients_built w)] |})
        as [(code & detail & Hfst) | (deviations & Hfst)];
        rewrite Hfst in H500; [discriminate |].
      unfold respond, deviations_model in H500.
      rewrite validate_deviations in H500.
      destruct (traverse (validate (TDict TAny)) deviations) as [validated |] eqn:Ht;
        [discriminate |].
      apply traverse_refused in Ht. destruct Ht as (hit & Hin & Hhit).
      exists a, deviations, hit. repeat split; [exact Hfst | exact Hin |].
      intros fields ->. rewrite validate_dict in Hhit. discriminate.
    + revert H500. rewrite get_deviation_by_id_eq. cbv zeta. cbn [cluster].
      destruct (cluster_get _ _ _) as [text | response]; [discriminate |].
      destruct (getitem response "_source") as [e | source] eqn:Hsrc;
        [discriminate |].
      cbn [fst]. intros H500. exists response, source.
      repeat split; [exact Hsrc |].
      intros fields ->. unfold respond, deviation_model in H500.
      rewrite validate_dict in H500. discriminate.
    + revert H500. rewrite health_check_eq. cbv zeta.
      destruct (cluster_health _) as [text | health]; [discriminate |].
      destruct (getitem health "status"); discriminate.
Qed.

End MoreRoutes.

(** ** The time bounds at their edges *)

Lemma cmp_tuple_refl (l : list Z) : Datetime.cmp_tuple l l = 0.
Proof.
  induction l as [| x l IH]; [reflexivity |].
  cbn [Datetime.cmp_tuple]. rewrite Z.ltb_irrefl. exact IH.
Qed.

Lemma gt_irrefl (t : datetime) : Datetime.gt t t = inr false.
Proof.
  unfold Datetime.gt, Datetime._cmp.
  assert (H : Datetime.option_Z_eqb (utcoffset t) (utcoffset t) = true)
    by (destruct (utcoffset t); [apply Z.eqb_refl | reflexivity]).
  rewrite H, cmp_tuple_refl. reflexivity.
Qed.

Section MoreBounds.

Context {rt : Runtime}.

(** X7: the comparison of line 231 is strict: a request whose start_time
    and end_time are the same datetime, naive or aware, passes the check; the
    search is dispatched with one range clause whose two bounds are the same
    text, and the answer is not a 400. *)
Theorem X7_equal_bounds_accepted (p : DeviationQueryParams.t)
    (client : OpenSearch) (s : State) (t : datetime) :
  p.#DeviationQueryParams.start_time = Some t ->
  p.#DeviationQueryParams.end_time = Some t ->
  let run := run_get_deviations p client s in
  let body :=
    envelope
      (spec_terms p
       ++ [range_clause [("gte", JStr (isoformat t));
                         ("lte", JStr (isoformat t))]]) in
  valid p
  /\ (exists tail,
        log (snd run)
        = log s ++ EvSearch (handle client) "deviations" body
                     p.#DeviationQueryParams.size
                     p.#DeviationQueryParams.from_ :: tail)
  /\ status_of (respond deviations_model (fst run)) <> 400.
Proof.
  intros Hst Het run body.
  assert (Hv : valid p).
  { unfold valid. rewrite Hst, Het. apply le_iff_not_gt, gt_irrefl. }
  split; [exact Hv |].
  subst run. rewrite run_get_deviations_eq, (valid_passes p Hv). cbv zeta.
  assert (Hr : spec_range p
               = [range_clause [("gte", JStr (isoformat t));
                                ("lte", JStr (isoformat t))]])
    by (unfold spec_range; rewrite Hst, Het; reflexivity).
  rewrite Hr. fold body.
  destruct (search_outcome client body _ _) as [e | deviations]; cbn -[respond].
  - split; [| discriminate]. eexists. rewrite <- app_assoc. reflexivity.
  - split; [| apply respond_returned_not_400]. exists []. reflexivity.
Qed.

(** X8: a naive bound against an aware one, whichever of the two is the
    start, cannot be ordered: the comparison raises inside the [try], the
    request is answered 500 with the text of the TypeError, the line is
    logged, and no search is dispatched. *)
Theorem X8_mixed_awareness_is_500 (p : DeviationQueryParams.t)
    (client : OpenSearch) (s : State) (st et : datetime) :
  p.#DeviationQueryParams.start_time = Some st ->
  p.#DeviationQueryParams.end_time = Some et ->
  bool_decide (is_Some (utcoffset st)) = negb (bool_decide (is_Some (utcoffset et))) ->
  let line :=
    "Erro ao consultar OpenSearch: can't compare offset-naive and offset-aware datetimes" in
  run_get_deviations p client s
  = (inl (HTTPException 500 line),
     {| query := envelope (spec_terms p); log := log s ++ [EvLogError line] |}).
Proof.
  intros Hst Het Hmix line. subst line. rewrite run_get_deviations_eq.
  unfold time_check, Datetime.gt, Datetime._cmp. rewrite Hst, Het.
  destruct (utcoffset st) as [a |], (utcoffset et) as [b |];
    cbn in Hmix; try discriminate; reflexivity.
Qed.

(** ** Strings handed to the model *)

(** X9: the validator makes a string and the datetime it parses to
    interchangeable: [get_deviations] called with a string that
    [fromisoformat] accepts, for start_time or for end_time, runs exactly as
    when called with the parsed datetime. *)
Theorem X9_parsable_string_is_its_value (cn ev ct : option string)
    (raw : string) (d : datetime) (other : time_arg) (sz fr : Z)
    (client : OpenSearch) (s : State) :
  fromisoformat raw = Some d ->
  get_deviations cn ev ct (TimeStr raw) other sz fr client s
  = get_deviations cn ev ct (TimeValue d) other sz fr client s
  /\ get_deviations cn ev ct other (TimeStr raw) sz fr client s
     = get_deviations cn ev ct other (TimeValue d) sz fr client s.
Proof.
  intros Hraw.
  assert (Hp : DeviationQueryParams.parse_datetime (TimeStr raw)
               = DeviationQueryParams.parse_datetime (TimeValue d))
    by (cbn; rewrite Hraw; reflexivity).
  unfold get_deviations, get_deviations_try, DeviationQueryParams.init.
  rewrite Hp. split; reflexivity.
Qed.

(** X10: a start_time string that [fromisoformat] rejects never becomes a
    400: the model raises its ValidationError naming start_time with the
    message of the validator, [get_deviations] logs it and answers 500, the
    query dict is not even created and no search is dispatched. *)
Theorem X10_unparsable_string_is_500 (cn ev ct : option string) (raw : string)
    (other : time_arg) (sz fr : Z) (client : OpenSearch) (s : State) :
  fromisoformat raw = None ->
  exists errors : list (string * string),
    let line :=
      "Erro ao consultar OpenSearch: "
      +:+ validation_error_text "DeviationQueryParams" errors in
    get_deviations cn ev ct (TimeStr raw) other sz fr client s
    = (inl (HTTPException 500 line),
       {| query := query s; log := log s ++ [EvLogError line] |})
    /\ In ("start_time",
           "Formato de data inválido. Use o formato ISO 8601 (YYYY-MM-DDTHH:MM:SS).")
          errors.
Proof.
  intros Hraw.
  unfold get_deviations, get_deviations_try, try_except, bind, lift,
    logging_error, emit, raise.
  unfold DeviationQueryParams.init, DeviationQueryParams.parse_datetime.
  rewrite Hraw.
  destruct other as [| raw' | d'];
    [| destruct (fromisoformat raw') |];
    (eexists; split; [reflexivity | left; reflexivity]).
Qed.

End MoreBounds.

(** ** Requests one after the other *)

Section MoreServing.

Context {rt : Runtime}.

Lemma response_ignores_log (d : Deployment) (r : Request) (w w' : list Event) :
  fst (serve d r w) = fst (serve d r w').
Proof.
  destruct (serve_cases d r w) as [(Ha & -> & _) | (Ha & cl & Hs & Hp)].
  - destruct (serve_cases d r w') as [(_ & -> & _) | (Ha' & _)];
      [reflexivity | congruence].
  - rewrite (serve_acquired d cl r w Hs Hp), (serve_acquired d cl r w' Hs Hp).
    cbv zeta. destruct r as [q | deviation_id |].
    + destruct (bind_get_deviations q) as [errors | a]; [reflexivity |].
      rewrite !run_get_deviations_eq. cbn [fst].
      destruct (time_check (filter_set_of a)) as [[code detail | e] | []];
        try reflexivity.
      cbv zeta. unfold search_outcome. cbn [cluster].
      destruct (of_reply _) as [e | response]; [reflexivity |].
      destruct (sources response); reflexivity.
    + rewrite !get_deviation_by_id_eq. cbv zeta. cbn [cluster].
      destruct (cluster_get _ _ _) as [text | response]; [reflexivity |].
      destruct (getitem response "_source"); reflexivity.
    + rewrite !health_check_eq. cbv zeta. cbn [cluster].
      destruct (cluster_health _) as [text | health]; [reflexivity |].
      destruct (getitem health "status"); reflexivity.
Qed.

(** X11: the service keeps nothing between requests: the answer to a
    request does not depend on the requests served before it, so the answers
    to a sequence of requests are the answers each request gets on its own. *)
Theorem X11_responses_do_not_depend_on_history (d : Deployment)
    (rs : list Request) (w : list Event) :
  fst (serve_all d rs w) = map (fun r => fst (serve d r [])) rs.
Proof.
  revert w. induction rs as [| r rs IH]; intros w; [reflexivity |].
  cbn [serve_all map].
  rewrite <- (response_ignores_log d r w []).
  destruct (serve d r w) as [resp w']. specialize (IH w').
  destruct (serve_all d rs w') as [resps w'']. cbn [fst] in *.
  rewrite IH. reflexivity.
Qed.

(** X12: a query parameter the signature of [get_deviations] does not
    declare is ignored: adding it to the query string changes neither the
    arguments bound nor anything the request does. *)
Theorem X12_undeclared_parameter_ignored (d : Deployment)
    (q : gmap string string) (name value : string) (w : list Event) :
  ~ In name declared_names ->
  bind_get_deviations (<[name := value]> q) = bind_get_deviations q
  /\ serve d (GET_deviations (<[name := value]> q)) w
     = serve d (GET_deviations q) w.
Proof.
  intros Hname.
  assert (Hb : bind_get_deviations (<[name := value]> q) = bind_get_deviations q).
  { unfold bind_get_deviations, param_str, param_datetime, param_int.
    rewrite !lookup_insert_ne; [reflexivity | ..];
      intros ->; apply Hname; cbn; auto 10. }
  split; [exact Hb |]. unfold serve. rewrite Hb. reflexivity.
Qed.

End MoreServing.

(** ** The tunnel and the start of the server *)

(** How a run of [setup_ngrok] ends, case by case. *)
Lemma setup_ngrok_run (ng : Ngrok) (port : Z) (out : list Effect) :
  exists (url : option Tunnel) (effs : list Effect),
    setup_ngrok ng port out = (inr url, out ++ effs)
    /\ forallb (fun eff => negb (is_uvicorn_run eff)) effs = true
    /\ (ngrok_available ng = false -> forallb (fun eff => negb (is_ngrok_call eff)) effs = true)
    /\ match url with
       | Some t =>
           ngrok_available ng = true
           /\ connect ng port "http" ngrok_domain = inr t
           /\ exists before,
                effs = before
                       ++ [LogInfo ("Ngrok tunnel ativo! URL pública: " +:+ tunnel_text t)]
       | None =>
           exists before line,
             effs = before ++ [LogWarning line] \/ effs = before ++ [LogError line]
       end.
Proof.
  unfold setup_ngrok, setup_ngrok_try, Boot.try_except, Boot.bind, Boot.emit,
    Boot.call, Boot.ret.
  destruct (ngrok_available ng); cbn [negb];
    [destruct (NGROK_AUTH_TOKEN ng) as [token |];
     [destruct (String.eqb token "");
      [| destruct (set_auth_token ng token) as [e | []]] |];
     try destruct (connect ng port "http" ngrok_domain) as [e' | t] |];
    do 2 eexists;
    (split; [rewrite <- ?app_assoc; cbn [app]; reflexivity |]);
    (split; [reflexivity |]);
    (split; [first [discriminate | reflexivity] |]);
    try (split; [reflexivity |]; split; [reflexivity |]);
    match goal with
    | |- exists before, ?l = before ++ _ =>
        exists (removelast l); reflexivity
    | |- exists before line, ?l = _ \/ _ =>
        exists (removelast l); eexists;
        first [left; reflexivity | right; reflexivity]
    end.
Qed.


(** X13: [setup_ngrok] lets no exception out, whatever pyngrok does.  It
    returns the tunnel exactly when pyngrok is installed, the auth token is
    not refused and [ngrok.connect] returns a tunnel, that tunnel being the
    one returned and the last line logged announcing it.  Otherwise it
    returns [None] and the last line logged says why: the warning that pyngrok
    is not available, or the error carrying the text of the exception that
    [ngrok.set_auth_token] or [ngrok.connect] raised. *)
Theorem X13_setup_ngrok_never_raises (ng : Ngrok) (port : Z)
    (out : list Effect) :
  exists (url : option Tunnel) (effs : list Effect),
    setup_ngrok ng port out = (inr url, out ++ effs)
    /\ ((exists t, url = Some t)
        <-> ngrok_available ng = true
            /\ token_refusal ng = None
            /\ exists t, connect ng port "http" ngrok_domain = inr t)
    /\ match url with
       | Some t =>
           connect ng port "http" ngrok_domain = inr t
           /\ exists before,
                effs = before
                       ++ [LogInfo ("Ngrok tunnel ativo! URL pública: " +:+ tunnel_text t)]
       | None =>
           if ngrok_available ng then
             exists before e,
               effs = before ++ [LogError ("Erro ao iniciar o Ngrok: " +:+ e)]
               /\ (token_refusal ng = Some e
                   \/ token_refusal ng = None
                      /\ connect ng port "http" ngrok_domain = inl e)
           else
             effs = [LogWarning
                       "Ngrok não está disponível. Certifique-se de que o pyngrok está instalado."]
       end.
Proof.
  unfold setup_ngrok, setup_ngrok_try, token_refusal, Boot.try_except,
    Boot.bind, Boot.emit, Boot.call, Boot.ret.
  destruct (ngrok_available ng); cbn [negb];
    [destruct (NGROK_AUTH_TOKEN ng) as [token |];
     [destruct (String.eqb token "");
      [| destruct (set_auth_token ng token) as [e | []]] |];
     try destruct (connect ng port "http" ngrok_domain) as [e' | t] |];
    do 2 eexists;
    (split; [rewrite <- ?app_assoc; cbn [app]; reflexivity |]);
    (split;
     [split;
      [intros [t0 Ht0]; first [discriminate | repeat split; eauto]
      | intros (H1 & H2 & [t0 H3]); first [discriminate | eauto]] |]);
    match goal with
    | |- _ /\ exists before, ?l = before ++ _ =>
        split; [reflexivity | exists (removelast l); reflexivity]
    | |- exists before e, ?l = _ /\ _ =>
        exists (removelast l); eexists; split; [reflexivity | eauto]
    | |- _ = _ => reflexivity
    end.
Qed.

(** X14: the auth token is handed to pyngrok exactly when pyngrok is
    installed and NGROK_AUTH_TOKEN is set to a non-empty value; and when
    pyngrok refuses the token, no tunnel is attempted: [setup_ngrok] logs
    the error and returns [None] without calling [ngrok.connect]. *)
Theorem X14_auth_token_gating (ng : Ngrok) (port : Z) (token : string) :
  (In (SetAuthToken token) (snd (setup_ngrok ng port []))
   <-> ngrok_available ng = true
       /\ NGROK_AUTH_TOKEN ng = Some token /\ token <> "")
  /\ (forall e : string,
        ngrok_available ng = true -> NGROK_AUTH_TOKEN ng = Some token ->
        token <> "" -> set_auth_token ng token = inl e ->
        setup_ngrok ng port []
        = (inr None,
           [SetAuthToken token; LogError ("Erro ao iniciar o Ngrok: " +:+ e)])).
Proof.
  unfold setup_ngrok, setup_ngrok_try, Boot.try_except, Boot.bind, Boot.emit,
    Boot.call, Boot.ret.
  split.
  - destruct (ngrok_available ng); cbn [negb];
      [destruct (NGROK_AUTH_TOKEN ng) as [token' |];
       [destruct (String.eqb token' "") eqn:Hempty;
        [apply String.eqb_eq in Hempty
        | apply String.eqb_neq in Hempty;
          destruct (set_auth_token ng token') as [e | []]] |];
       try destruct (connect ng port "http" ngrok_domain) |];
      cbn [app snd In];
      intuition (subst; try discriminate; try congruence).
  - intros e Ha Ht Hne Hset. rewrite Ha, Ht. cbn [negb].
    apply String.eqb_neq in Hne. rewrite Hne, Hset. reflexivity.
Qed.

(** [main] ends by starting the server. *)
Lemma main_ends_with_server (ng : Ngrok) (out : list Effect) :
  exists effs : list Effect,
    main ng out = (inr tt, out ++ effs ++ [UvicornRun "0.0.0.0" 8000]).
Proof.
  unfold main. cbv zeta. unfold Boot.bind at 1.
  destruct (ngrok_available ng).
  - unfold Boot.bind at 1.
    destruct (setup_ngrok_run ng 8000 out) as (url & effs & Hrun & _).
    rewrite Hrun. unfold Boot.bind, Boot.emit.
    destruct url as [t |].
    + exists (effs ++ [LogInfo ("API disponível externamente em: " +:+ tunnel_text t);
                       LogInfo ("Documentação disponível em: " +:+ tunnel_text t
                                +:+ "/docs");
                       LogInfo "Servidor iniciando em: http://0.0.0.0:8000";
                       LogInfo "Documentação disponível em: http://0.0.0.0:8000/docs"]).
      rewrite <- !app_assoc. reflexivity.
    + exists (effs ++ [LogWarning
                         "Falha ao iniciar o Ngrok. A API só estará disponível localmente.";
                       LogInfo "Servidor iniciando em: http://0.0.0.0:8000";
                       LogInfo "Documentação disponível em: http://0.0.0.0:8000/docs"]).
      rewrite <- !app_assoc. reflexivity.
  - unfold Boot.bind, Boot.emit, Boot.ret.
    exists [LogInfo "Servidor iniciando em: http://0.0.0.0:8000";
            LogInfo "Documentação disponível em: http://0.0.0.0:8000/docs"].
    rewrite <- !app_assoc. reflexivity.
Qed.

(** X15: the server is started whatever happens to the tunnel: [main]
    raises nothing and its last effect, and its only start of the server, is
    uvicorn.run on host 0.0.0.0 and port 8000; and when pyngrok is not
    installed [main] does not call [setup_ngrok] at all: it logs the two
    lines of the local address and nothing else. *)
Theorem X15_server_always_started (ng : Ngrok) (out : list Effect) :
  exists effs : list Effect,
    main ng out = (inr tt, out ++ effs ++ [UvicornRun "0.0.0.0" 8000])
    /\ forallb (fun eff => negb (is_uvicorn_run eff)) effs = true
    /\ (ngrok_available ng = false ->
        effs = [LogInfo "Servidor iniciando em: http://0.0.0.0:8000";
                LogInfo "Documentação disponível em: http://0.0.0.0:8000/docs"]).
Proof.
  unfold main. cbv zeta. unfold Boot.bind at 1.
  destruct (ngrok_available ng) eqn:Ha.
  - unfold Boot.bind at 1.
    destruct (setup_ngrok_run ng 8000 out) as (url & effs & Hrun & Hnorun & _).
    rewrite Hrun. unfold Boot.bind, Boot.emit.
    destruct url as [t |].
    + exists (effs ++ [LogInfo ("API disponível externamente em: " +:+ tunnel_text t);
                       LogInfo ("Documentação disponível em: " +:+ tunnel_text t
                                +:+ "/docs");
                       LogInfo "Servidor iniciando em: http://0.0.0.0:8000";
                       LogInfo "Documentação disponível em: http://0.0.0.0:8000/docs"]).
      split; [rewrite <- !app_assoc; reflexivity |].
      split; [rewrite forallb_app, Hnorun; reflexivity | discriminate].
    + exists (effs ++ [LogWarning
                         "Falha ao iniciar o Ngrok. A API só estará disponível localmente.";
                       LogInfo "Servidor iniciando em: http://0.0.0.0:8000";
                       LogInfo "Documentação disponível em: http://0.0.0.0:8000/docs"]).
      split; [rewrite <- !app_assoc; reflexivity |].
      split; [rewrite forallb_app, Hnorun; reflexivity | discriminate].
  - unfold Boot.bind, Boot.emit, Boot.ret.
    exists [LogInfo "Servidor iniciando em: http://0.0.0.0:8000";
            LogInfo "Documentação disponível em: http://0.0.0.0:8000/docs"].
    split; [rewrite <- !app_assoc; reflexivity |].
    split; reflexivity.
Qed.

(** X16: the process serves only when its configuration is in place.
    With config.ini and .env there and both read without error, the script
    ends by starting the server.  With a file missing it dies with
    FileNotFoundError, config.ini being the one reported when both are
    missing; with a file that [load_dotenv] or [config.read] raises on, it dies
    with that exception, the one of [load_dotenv] when both raise; in each
    of these cases before anything of the tunnel or the server is started. *)
Theorem X16_server_needs_its_configuration (d : Deployment) (ng : Ngrok) :
  let run := script d ng [] in
  let nothing_started :=
    forallb (fun eff => negb (is_uvicorn_run eff || is_ngrok_call eff))
      (snd run) = true in
  if config_ini_exists d && dotenv_exists d then
    match load_dotenv d, config_read d with
    | inr _, inr _ =>
        fst run = inr tt
        /\ exists effs, snd run = effs ++ [UvicornRun "0.0.0.0" 8000]
    | inl e, _ => fst run = inl e /\ nothing_started
    | inr _, inl e => fst run = inl e /\ nothing_started
    end
  else
    fst run
    = inl (FileNotFoundError
             (if config_ini_exists d then "Arquivo .env não encontrado!"
              else "Arquivo config.ini não encontrado!"))
    /\ nothing_started.
Proof.
  intros run nothing_started. subst run nothing_started.
  unfold script, module_init, Boot.bind, Boot.call, Boot.try_except, Boot.emit,
    Boot.ret, Boot.raise.
  destruct (ngrok_available ng);
    destruct (config_ini_exists d), (dotenv_exists d);
    cbn [negb andb fst snd app];
    try (split; reflexivity);
    destruct (load_dotenv d) as [e | []];
    cbn [fst snd]; try (split; reflexivity);
    destruct (config_read d) as [e | []];
    cbn [fst snd]; try (split; reflexivity);
    match goal with
    | |- context [main ng ?out0] =>
        destruct (main_ends_with_server ng out0) as (effs & Hmain); rewrite Hmain;
        cbn [fst snd]; (split; [reflexivity |]);
        exists (out0 ++ effs); rewrite <- app_assoc; reflexivity
    end.
Qed.

(** ** Backend calls per request *)

Section MoreCalls.

Context {rt : Runtime}.

Lemma calls_made_app (l1 l2 : list Event) :
  calls_made (l1 ++ l2) = (calls_made l1 + calls_made l2)%nat.
Proof. unfold calls_made. rewrite List.filter_app, length_app. reflexivity. Qed.

(** X17: nothing is retried and nothing is called for a request that is
    turned away: a request makes at most one call on the cluster beside the
    ping; a request answered 400 or 422 makes none, nor does any request when
    no client can be handed over; and a bare 500 with a client at hand comes
    after exactly one call, the one whose result the [response_model] pass
    refused. *)
Theorem X17_at_most_one_backend_call (d : Deployment) (r : Request)
    (w : list Event) :
  let after := calls_made (snd (serve d r w)) in
  (after = calls_made w \/ after = S (calls_made w))
  /\ (status_of (fst (serve d r w)) = 400
      \/ status_of (fst (serve d r w)) = 422
      \/ acquirable d = false ->
      after = calls_made w)
  /\ (acquirable d = true -> fst (serve d r w) = InternalServerError ->
      after = S (calls_made w)).
Proof.
  intros after. subst after.
  destruct (serve_cases d r w) as [(Ha & Hr & [-> | ->]) | (Ha & cl & Hs & Hp)].
  - rewrite Ha. repeat split; auto. discriminate.
  - rewrite Ha, calls_made_app. cbn. rewrite Nat.add_0_r.
    repeat split; auto. discriminate.
  - rewrite Ha, (serve_acquired d cl r w Hs Hp). cbv zeta.
    destruct r as [q | deviation_id |].
    + destruct (bind_get_deviations q) as [errors | a].
      * cbn [fst snd log]. rewrite calls_made_app. cbn. rewrite Nat.add_0_r.
        repeat split; auto. discriminate.
      * rewrite run_get_deviations_eq.
        destruct (time_check_cases (filter_set_of a)) as [-> | [-> | [e ->]]].
        -- cbv zeta. destruct (search_outcome _ _ _ _) as [e | deviations];
             cbn [fst snd log];
             rewrite !calls_made_app; cbn [calls_made List.filter is_backend_call
                                           length app];
             rewrite ?Nat.add_0_r, ?Nat.add_1_r;
             (split; [auto |]); (split; [| auto]).
           ++ cbn. intros [H | [H | H]]; discriminate.
           ++ destruct (respond_returned deviations_model
                          (JObj [("deviations", JArr deviations)]))
                as [[validated ->] | ->];
                cbn; intros [H | [H | H]]; discriminate.
        -- cbn [fst snd log respond status_of].
           rewrite !calls_made_app. cbn. rewrite ?Nat.add_0_r.
           repeat split; auto. discriminate.
        -- cbn [fst snd log respond status_of].
           rewrite !calls_made_app. cbn. rewrite ?Nat.add_0_r.
           repeat split; auto. discriminate.
    + rewrite get_deviation_by_id_eq. cbv zeta.
      destruct (cluster_get _ _ _) as [text | response];
        [| destruct (getitem response "_source") as [e | source]];
        cbn [fst snd log];
        rewrite !calls_made_app; cbn [calls_made List.filter is_backend_call
                                      length app];
        rewrite ?Nat.add_0_r, ?Nat.add_1_r;
        (split; [auto |]); (split; [| auto]);
        try (destruct (respond_returned deviation_model source)
               as [[validated ->] | ->]);
        cbn; intros [H | [H | H]]; discriminate.
    + rewrite health_check_eq. cbv zeta.
      destruct (cluster_health _) as [text | health];
        [| destruct (getitem health "status")];
        cbn [fst snd log];
        rewrite !calls_made_app; cbn [calls_made List.filter is_backend_call
                                      length app];
        rewrite ?Nat.add_0_r, ?Nat.add_1_r;
        (split; [auto |]); (split; [| auto]);
        cbn; intros [H | [H | H]]; discriminate.
Qed.

End MoreCalls.

(** ** The further properties on the sample data *)

Lemma X2_deviations_in_backend_order_witness :
  valid Reference.filters
  /\ fst (run_get_deviations (rt := Reference.runtime) Reference.filters
            Reference.client0 Reference.fresh)
     = inr (JObj [("deviations", JArr [Reference.record1; Reference.record2])]).
Proof.
  split; [reflexivity |].
  refine (proj1 (X2_deviations_in_backend_order (rt := Reference.runtime)
                   Reference.filters Reference.client0 Reference.fresh
                   _ _ [Reference.hit "1" Reference.record1;
                        Reference.hit "2" Reference.record2]
                   [Reference.record1; Reference.record2]
                   eq_refl eq_refl eq_refl eq_refl _)).
  repeat constructor.
Defined.

Lemma X3_one_bad_hit_fails_the_request_witness :
  getitem (JObj [("_index", JStr "deviations"); ("_id", JStr "2")]) "_source"
  = inl (KeyError "_source")
  /\ fst (run_get_deviations (rt := Reference.runtime) Reference.filters
            Samples.ragged_client Reference.fresh)
     = inl (HTTPException 500 "Erro ao consultar OpenSearch: '_source'").
Proof.
  split; [reflexivity |].
  refine (X3_one_bad_hit_fails_the_request (rt := Reference.runtime)
            Reference.filters Samples.ragged_client Reference.fresh
            _ _ (JObj [("_index", JStr "deviations"); ("_id", JStr "2")])
            [Reference.hit "1" Reference.record1]
            [Reference.hit "3" Reference.record2] (KeyError "_source")
            eq_refl eq_refl eq_refl eq_refl _ eq_refl).
  repeat constructor. exists Reference.record1. reflexivity.
Defined.

Lemma X5_errors_are_logged_witness :
  fst (serve (rt := Reference.runtime) Reference.deployment
         (GET_deviation_by_id "unknown-id") [])
  = ErrorDetail 404 "Desvio não encontrado: NotFoundError(404, 'not_found')"
  /\ exists events,
       snd (serve (rt := Reference.runtime) Reference.deployment
              (GET_deviation_by_id "unknown-id") [])
       = events
         ++ [EvLogError "Desvio não encontrado: NotFoundError(404, 'not_found')"].
Proof.
  split; [reflexivity |].
  destruct (X5_errors_are_logged (rt := Reference.runtime) Reference.deployment
              (GET_deviation_by_id "unknown-id") [] 404
              "Desvio não encontrado: NotFoundError(404, 'not_found')" eq_refl)
    as [[H400 _] | [_ Hlogged]].
  - discriminate H400.
  - exact Hlogged.
Defined.

Lemma X7_equal_bounds_accepted_witness :
  valid Samples.one_instant
  /\ status_of (respond (rt := Reference.runtime) deviations_model
                  (fst (run_get_deviations (rt := Reference.runtime)
                          Samples.one_instant Reference.client0
                          Reference.fresh))) <> 400.
Proof.
  pose proof (X7_equal_bounds_accepted (rt := Reference.runtime)
                Samples.one_instant Reference.client0 Reference.fresh
                Samples.noon eq_refl eq_refl) as (Hv & _ & Hstatus).
  split; [exact Hv | exact Hstatus].
Defined.

Lemma X8_mixed_awareness_is_500_witness :
  fst (run_get_deviations (rt := Reference.runtime) Samples.mixed
         Reference.client0 Reference.fresh)
  = inl (HTTPException 500
           "Erro ao consultar OpenSearch: can't compare offset-naive and offset-aware datetimes").
Proof.
  exact (f_equal fst
           (X8_mixed_awareness_is_500 (rt := Reference.runtime) Samples.mixed
              Reference.client0 Reference.fresh _ _ eq_refl eq_refl eq_refl)).
Defined.

Lemma X9_parsable_string_is_its_value_witness :
  Reference.iso_seconds "2023-10-01T00:00:00"
  = Some (Datetime.mk 2023 10 1 0 0 0 0 None)
  /\ get_deviations (rt := Reference.runtime) None None None
       (TimeStr "2023-10-01T00:00:00") TimeNone 10 0 Reference.client0
       Reference.fresh
     = get_deviations (rt := Reference.runtime) None None None
         (TimeValue (Datetime.mk 2023 10 1 0 0 0 0 None)) TimeNone 10 0
         Reference.client0 Reference.fresh.
Proof.
  split; [reflexivity |].
  exact (proj1 (X9_parsable_string_is_its_value (rt := Reference.runtime)
                  None None None "2023-10-01T00:00:00" _ TimeNone 10 0
                  Reference.client0 Reference.fresh eq_refl)).
Defined.

Lemma X10_unparsable_string_is_500_witness :
  Reference.iso_seconds "not-a-date" = None
  /\ exists line,
       get_deviations (rt := Reference.runtime) None None None
         (TimeStr "not-a-date") TimeNone 10 0 Reference.client0 Reference.fresh
       = (inl (HTTPException 500 line),
          {| query := JNull; log := [EvLogError line] |}).
Proof.
  split; [reflexivity |].
  destruct (X10_unparsable_string_is_500 (rt := Reference.runtime)
              None None None "not-a-date" TimeNone 10 0 Reference.client0
              Reference.fresh eq_refl) as (errors & Hrun & _).
  eexists. exact Hrun.
Defined.

Lemma X12_undeclared_parameter_ignored_witness :
  ~ In "page" declared_names
  /\ serve (rt := Reference.runtime) Reference.deployment
       (GET_deviations (<[ "page" := "3" ]> {[ "size" := "20" ]})) []
     = serve (rt := Reference.runtime) Reference.deployment
         (GET_deviations {[ "size" := "20" ]}) [].
Proof.
  assert (H : ~ In "page" declared_names).
  { cbn. intros H. repeat (destruct H as [H | H]; [discriminate H |]). exact H. }
  split; [exact H |].
  exact (proj2 (X12_undeclared_parameter_ignored (rt := Reference.runtime)
                  Reference.deployment {[ "size" := "20" ]} "page" "3" [] H)).
Defined.
